(** * asks/request.py: the request orchestration core, embedded in Rocq

    A shallow embedding of [asks.request.Request]: the query/form codec,
    the multipart encoder, the request assembler, the response consumer and
    the redirect / authentication state machine driven by [make_request].

    Conventions of the embedding.
    - A Python [str] is a Rocq [string] of characters below 256, a Python
      [bytes] a Rocq [string] of bytes.  Where the code encodes the
      pieces of a text it is assembling ([_queryify], [_multipart]), the
      embedding covers text that the request's codec ([self.encoding],
      supplied by the session) leaves as it is; where it takes a length
      first and encodes afterwards (the body in [make_request]), the
      codec is the collaborator [encode], a total function, as utf-8
      is.
    - Exceptions are values of [exn]; a computation that can raise returns a
      [res].  Code that reads or writes [self], the socket or the session
      lives in the state monad [M] further down.
    - Collaborators that are not part of request.py (the MIME table, the
      file system, the authentication callables, the cookie tracker, the
      server at the other end of the socket) are fields of a record the
      definitions are parameterised by. *)

From Stdlib Require Import ZArith List String Ascii Bool Lia.
From Stdlib Require Import DecimalString.
Import ListNotations.

Local Open Scope string_scope.
Local Open Scope Z_scope.

(** ** Python strings *)

Module PyStr.

(** [c.isspace()] on the 8-bit range: the ASCII white space, the four
    separators 0x1C..0x1F, NEL (0x85) and the no-break space (0xA0). *)
Definition is_space (c : ascii) : bool :=
  let n := nat_of_ascii c in
  ((9 <=? n)%nat && (n <=? 13)%nat) || ((28 <=? n)%nat && (n <=? 32)%nat)
  || (n =? 133)%nat || (n =? 160)%nat.

Definition is_empty (s : string) : bool :=
  match s with EmptyString => true | String _ _ => false end.

(** Python truthiness of a [str]. *)
Definition truthy (s : string) : bool := negb (is_empty s).

Definition snoc (s : string) (c : ascii) : string := s ++ String c "".

(** [s.split()]: the maximal runs of non-whitespace characters. *)
Fixpoint split_ws_from (cur : string) (s : string) : list string :=
  match s with
  | EmptyString => if is_empty cur then [] else [cur]
  | String c r =>
      if is_space c
      then (if is_empty cur then split_ws_from "" r
            else cur :: split_ws_from "" r)
      else split_ws_from (snoc cur c) r
  end.

Definition split_ws (s : string) : list string := split_ws_from "" s.

(** [s.split(sep)] for a one-character separator. *)
Fixpoint split_on_from (sep : ascii) (cur : string) (s : string)
  : list string :=
  match s with
  | EmptyString => [cur]
  | String c r =>
      if Ascii.eqb c sep then cur :: split_on_from sep "" r
      else split_on_from sep (snoc cur c) r
  end.

Definition split_on (sep : ascii) (s : string) : list string :=
  split_on_from sep "" s.

(** [sep.join(parts)]. *)
Fixpoint join (sep : string) (parts : list string) : string :=
  match parts with
  | [] => ""
  | [p] => p
  | p :: rest => p ++ sep ++ join sep rest
  end.

Fixpoint lstrip (s : string) : string :=
  match s with
  | EmptyString => ""
  | String c r => if is_space c then lstrip r else s
  end.

Fixpoint rstrip (s : string) : string :=
  match s with
  | EmptyString => ""
  | String c r =>
      let r' := rstrip r in
      if is_empty r' && is_space c then "" else String c r'
  end.

(** [s.strip()]. *)
Definition strip (s : string) : string := rstrip (lstrip s).

Definition lower_char (c : ascii) : ascii :=
  let n := nat_of_ascii c in
  if ((65 <=? n)%nat && (n <=? 90)%nat) then ascii_of_nat (n + 32) else c.

(** [s.lower()] on the ASCII range. *)
Fixpoint lower (s : string) : string :=
  match s with
  | EmptyString => ""
  | String c r => String (lower_char c) (lower r)
  end.

Fixpoint starts_with (p s : string) : bool :=
  match p, s with
  | EmptyString, _ => true
  | String a p', String b s' => Ascii.eqb a b && starts_with p' s'
  | String _ _, EmptyString => false
  end.

Fixpoint drop (n : nat) (s : string) : string :=
  match n, s with
  | O, _ => s
  | S n', String _ r => drop n' r
  | S _, EmptyString => ""
  end.

(** [s.replace(old, new)] for a non-empty [old]: every occurrence, left
    to right, without overlap.  [skip] counts the characters of a match
    still to be passed over. *)
Fixpoint replace_go (old new : string) (skip : nat) (s : string)
  : string :=
  match s with
  | EmptyString => ""
  | String c r =>
      match skip with
      | S k => replace_go old new k r
      | O =>
          if starts_with old s
          then new ++ replace_go old new (String.length old - 1)%nat r
          else String c (replace_go old new O r)
      end
  end.

Definition replace (old new s : string) : string :=
  replace_go old new O s.

(** [s[:-1]]. *)
Fixpoint drop_last (s : string) : string :=
  match s with
  | EmptyString => ""
  | String _ EmptyString => ""
  | String c r => String c (drop_last r)
  end.

(** [l[-2:]]. *)
Definition last_two {A} (l : list A) : list A :=
  skipn (List.length l - 2)%nat l.

(** [a < b] on strings: lexicographic on character codes. *)
Fixpoint ltb (a b : string) : bool :=
  match a, b with
  | _, EmptyString => false
  | EmptyString, String _ _ => true
  | String x a', String y b' =>
      let nx := nat_of_ascii x in
      let ny := nat_of_ascii y in
      if (nx <? ny)%nat then true
      else if (ny <? nx)%nat then false
      else ltb a' b'
  end.

(** [str(z)] for an [int]. *)
Definition of_Z (z : Z) : string := NilZero.string_of_int (Z.to_int z).

(** [str(n)] for a length. *)
Definition of_nat (n : nat) : string := of_Z (Z.of_nat n).

Definition is_digit (c : ascii) : bool :=
  let n := nat_of_ascii c in (48 <=? n)%nat && (n <=? 57)%nat.

Fixpoint digits_value (acc : Z) (s : string) : option Z :=
  match s with
  | EmptyString => Some acc
  | String c r =>
      if is_digit c
      then digits_value (10 * acc + Z.of_nat (nat_of_ascii c - 48)) r
      else None
  end.

(** [int(s)]: surrounding whitespace, an optional sign, then one or more
    decimal digits; [None] stands for [ValueError]. *)
Definition to_Z (s : string) : option Z :=
  match strip s with
  | EmptyString => None
  | String "-"%char EmptyString => None
  | String "+"%char EmptyString => None
  | String "-"%char r => option_map Z.opp (digits_value 0 r)
  | String "+"%char r => digits_value 0 r
  | r => digits_value 0 r
  end.

(** [os.path.basename(p)]: what follows the last slash. *)
Definition basename (p : string) : string :=
  List.last (split_on "/"%char p) "".

(** UTF-8 of a character below 256: itself below 128, two bytes from
    there on. *)
Definition encode_utf8_char (c : ascii) : string :=
  let n := nat_of_ascii c in
  if (n <? 128)%nat then String c ""
  else String (ascii_of_nat (192 + n / 64))
         (String (ascii_of_nat (128 + n mod 64)) "").

(** [s.encode('utf-8')] on the 8-bit range. *)
Fixpoint encode_utf8 (s : string) : string :=
  match s with
  | EmptyString => ""
  | String c r => encode_utf8_char c ++ encode_utf8 r
  end.

End PyStr.

(** ** urllib.parse

    [quote], [urlparse] and [urlunparse] as CPython defines them, on the
    8-bit range. *)

Module Url.

Definition is_alpha (c : ascii) : bool :=
  let n := nat_of_ascii c in
  ((65 <=? n)%nat && (n <=? 90)%nat) || ((97 <=? n)%nat && (n <=? 122)%nat).

Definition mem_char (c : ascii) (set : string) : bool :=
  existsb (Ascii.eqb c) (list_ascii_of_string set).

(** The characters [quote] never escapes. *)
Definition always_safe (c : ascii) : bool :=
  is_alpha c || PyStr.is_digit c || mem_char c "_.-~".

Definition hex_digit (n : nat) : ascii :=
  if (n <? 10)%nat then ascii_of_nat (48 + n) else ascii_of_nat (55 + n).

Definition percent (c : ascii) : string :=
  let n := nat_of_ascii c in
  String "%"%char
    (String (hex_digit (n / 16)) (String (hex_digit (n mod 16)) "")).

(** [quote(s, safe=safe)]. *)
Fixpoint quote (safe : string) (s : string) : string :=
  match s with
  | EmptyString => ""
  | String c r =>
      (if always_safe c || mem_char c safe then String c "" else percent c)
      ++ quote safe r
  end.

Record parts : Type := Parts {
  scheme : string; netloc : string; path : string;
  params : string; query : string; fragment : string }.

(** [s.split(sep, 1)] when [sep] occurs in [s]. *)
Fixpoint split_first_from (sep : ascii) (cur s : string)
  : option (string * string) :=
  match s with
  | EmptyString => None
  | String c r =>
      if Ascii.eqb c sep then Some (cur, r)
      else split_first_from sep (PyStr.snoc cur c) r
  end.

Definition split_first (sep : ascii) (s : string)
  : option (string * string) := split_first_from sep "" s.

Definition is_scheme_char (c : ascii) : bool :=
  is_alpha c || PyStr.is_digit c || mem_char c "+-.".

(** The scheme prefix of [urlsplit]: the text before the first colon when
    it starts with a letter and holds scheme characters only. *)
Definition split_scheme (url : string) : string * string :=
  match split_first ":"%char url with
  | Some (String c0 pre, rest) =>
      if is_alpha c0
         && forallb is_scheme_char (list_ascii_of_string (String c0 pre))
      then (PyStr.lower (String c0 pre), rest)
      else ("", url)
  | _ => ("", url)
  end.

(** [_splitnetloc(url, 2)]: the authority runs to the first of [/?#]. *)
Fixpoint split_netloc_from (cur s : string) : string * string :=
  match s with
  | EmptyString => (cur, "")
  | String c r =>
      if mem_char c "/?#" then (cur, s)
      else split_netloc_from (PyStr.snoc cur c) r
  end.

Definition split_netloc (url : string) : string * string :=
  if PyStr.starts_with "//" url
  then split_netloc_from "" (PyStr.drop 2 url)
  else ("", url).

Definition split_opt (sep : ascii) (s : string) : string * string :=
  match split_first sep s with
  | Some (a, b) => (a, b)
  | None => (s, "")
  end.

Definition uses_params : list string :=
  [""; "ftp"; "hdl"; "prospero"; "http"; "imap"; "https"; "shttp"; "rtsp";
   "rtspu"; "sip"; "sips"; "mms"; "sftp"; "tel"].

Definition uses_netloc : list string :=
  [""; "ftp"; "http"; "gopher"; "nntp"; "telnet"; "imap"; "wais"; "file";
   "mms"; "https"; "shttp"; "snews"; "prospero"; "rtsp"; "rtspu"; "rsync";
   "svn"; "svn+ssh"; "sftp"; "nfs"; "git"; "git+ssh"; "ws"; "wss"].

Definition mem_str (s : string) (l : list string) : bool :=
  existsb (String.eqb s) l.

(** [_splitparams]: the parameters of the last path segment. *)
Definition split_params (url : string) : string * string :=
  let segs := PyStr.split_on "/"%char url in
  let lastseg := List.last segs "" in
  match split_first ";"%char lastseg with
  | Some (a, b) =>
      (PyStr.join "/" (List.removelast segs ++ [a])%list, b)
  | None => (url, "")
  end.

(** [urlparse(url)]: the six components, for a url that [urlsplit]
    accepts (see [invalid_ipv6] and [bracketed_host]). *)
Definition urlparse (url : string) : parts :=
  let '(sch, u1) := split_scheme url in
  let '(loc, u2) := split_netloc u1 in
  let '(u3, frag) := split_opt "#"%char u2 in
  let '(u4, qry) := split_opt "?"%char u3 in
  let '(pth, prm) :=
    if mem_str sch uses_params then split_params u4 else (u4, "") in
  Parts sch loc pth prm qry frag.

(** The urls [urlsplit] refuses with [ValueError("Invalid IPv6 URL")]:
    one of the square brackets is in the authority and the other is
    not. *)
Definition invalid_ipv6 (url : string) : bool :=
  let loc := netloc (urlparse url) in
  xorb (mem_char "["%char loc) (mem_char "]"%char loc).

(** The host between the square brackets of an authority that has both:
    [netloc.partition('[')[2].partition(']')[0]], which the interpreters
    that have [_check_bracketed_host] validate. *)
Definition bracketed_host (url : string) : option string :=
  let loc := netloc (urlparse url) in
  if mem_char "["%char loc && mem_char "]"%char loc
  then
    let after :=
      match split_first "["%char loc with
      | Some (_, r) => r
      | None => ""
      end in
    Some (match split_first "]"%char after with
          | Some (h, _) => h
          | None => after
          end)
  else None.

(** [urlunparse((scheme, netloc, path, params, query, fragment))]. *)
Definition urlunparse (p : parts) : string :=
  let url :=
    if PyStr.truthy (params p) then path p ++ ";" ++ params p else path p in
  let url :=
    if PyStr.truthy (netloc p)
       || (PyStr.truthy (scheme p) && mem_str (scheme p) uses_netloc
           && negb (PyStr.starts_with "//" url))
    then
      let url :=
        if PyStr.truthy url && negb (PyStr.starts_with "/" url)
        then "/" ++ url else url in
      "//" ++ netloc p ++ url
    else url in
  let url := if PyStr.truthy (scheme p) then scheme p ++ ":" ++ url else url in
  let url := if PyStr.truthy (query p) then url ++ "?" ++ query p else url in
  if PyStr.truthy (fragment p) then url ++ "#" ++ fragment p else url.

End Url.

(** ** Exceptions and results *)

Inductive exn : Type :=
| TooManyRedirects
| KeyError (key : string)
| AttributeError (attr : string)
| TypeError (what : string)
| ValueError (what : string)
| FileNotFoundError
| OSError (what : string)
| AssertionError
| TransportError.

(** The outcome of running Python code: a value, a raised exception, or
    (for the recursion of [make_request] only) the fuel of the embedding
    running out. *)
Inductive res (A : Type) : Type :=
| Ret (a : A)
| Raise (e : exn)
| OutOfFuel.

Arguments Ret {A} a.
Arguments Raise {A} e.
Arguments OutOfFuel {A}.

(** ** Python values a caller passes in *)

(** The scalars: [None], [bool], [int], [str]. *)
Inductive atom : Type :=
| ANone
| ABool (b : bool)
| AInt (z : Z)
| AStr (s : string).

(** A value of a [data] / [params] / [files] mapping: a scalar, a mapping
    (keys are strings), or any other iterable, given by its elements. *)
Inductive pyval : Type :=
| VAtom (a : atom)
| VDict (d : list (string * atom))
| VList (l : list atom).

(** What [data] and [params] may be: a mapping or a literal string. *)
Inductive pydata : Type :=
| DDict (items : list (string * pyval))
| DStr (s : string).

Definition atom_truthy (a : atom) : bool :=
  match a with
  | ANone => false
  | ABool b => b
  | AInt z => negb (z =? 0)
  | AStr s => PyStr.truthy s
  end.

Definition is_nil {A} (l : list A) : bool :=
  match l with [] => true | _ :: _ => false end.

Definition truthy (v : pyval) : bool :=
  match v with
  | VAtom a => atom_truthy a
  | VDict d => negb (is_nil d)
  | VList l => negb (is_nil l)
  end.

Definition data_truthy (d : pydata) : bool :=
  match d with
  | DDict items => negb (is_nil items)
  | DStr s => PyStr.truthy s
  end.

(** [str(a)]. *)
Definition py_str (a : atom) : string :=
  match a with
  | ANone => "None"
  | ABool true => "True"
  | ABool false => "False"
  | AInt z => PyStr.of_Z z
  | AStr s => s
  end.

(** [isinstance(a, (str, Number))]: [bool] and [int] are Numbers. *)
Definition is_str_or_number (a : atom) : bool :=
  match a with ANone => false | _ => true end.

(** ** Ordered dictionaries and the case-insensitive header mapping *)

Module Dict.

(** [d[k] = v]: in place when [k] is there, appended otherwise. *)
Fixpoint set {V} (k : string) (v : V) (d : list (string * V))
  : list (string * V) :=
  match d with
  | [] => [(k, v)]
  | (k', v') :: r =>
      if String.eqb k k' then (k, v) :: r else (k', v') :: set k v r
  end.

Fixpoint get {V} (k : string) (d : list (string * V)) : option V :=
  match d with
  | [] => None
  | (k', v) :: r => if String.eqb k k' then Some v else get k r
  end.

(** [d.update(other)], also [{**d, **other}]. *)
Definition update {V} (d other : list (string * V)) : list (string * V) :=
  fold_left (fun acc kv => set (fst kv) (snd kv) acc) other d.

End Dict.

(** A header value: a string, for [set-cookie] a list of strings, or
    [None] (what [_formulate_body] leaves in [c_type] when no branch
    applies). *)
Inductive hval : Type :=
| HStr (s : string)
| HList (l : list string)
| HNone.

(** Modelled from the spec: [req_structs.CaseInsensitiveDict] is not under
    src/.  The spec calls it a case-insensitive mapping; request.py builds
    it from a list of pairs, reads and writes it by subscript, calls
    [update] and [items] on it, and guards its lookups with
    [except KeyError]: an insertion-ordered dictionary whose keys are
    lower-cased, whose lookup of an absent key raises [KeyError]. *)
Module CIDict.

Definition t : Type := list (string * hval).

Definition set (k : string) (v : hval) (d : t) : t :=
  Dict.set (PyStr.lower k) v d.

Definition get (k : string) (d : t) : res hval :=
  match Dict.get (PyStr.lower k) d with
  | Some v => Ret v
  | None => Raise (KeyError k)
  end.

Definition of_list (l : list (string * hval)) : t :=
  fold_left (fun acc kv => set (fst kv) (snd kv) acc) l [].

Definition update (d : t) (other : list (string * string)) : t :=
  fold_left (fun acc kv => set (fst kv) (HStr (snd kv)) acc) other d.

End CIDict.

(** ** Query / form codec *)

(** [_queryify]: [quote(query.encode(self.encoding), safe='/=+?&')]. *)
Definition _queryify (query : string) : string :=
  Url.quote "/=+?&" query.

(** ['+'.join(str(a).split())]. *)
Definition plus_joined (a : atom) : string :=
  PyStr.join "+" (PyStr.split_ws (py_str a)).

(** One turn of the loop of [_dict_to_query]: what the pair [(k, v)]
    appends to [query]. *)
Definition query_step (query : list string) (kv : string * pyval)
  : list string :=
  let '(k, v) := kv in
  if negb (truthy v) then query
  else
    match v with
    | VAtom a =>
        if is_str_or_number a
        then (query ++ [_queryify (k ++ "=" ++ plus_joined a)])%list
        else query
    | VDict d =>
        fold_left (fun q key => (q ++ [_queryify (k ++ "=" ++ key)])%list)
                  (map fst d) query
    | VList l =>
        fold_left
          (fun q elm => (q ++ [_queryify (k ++ "=" ++ plus_joined elm)])%list)
          l query
    end.

(** The list [query] when the loop over [data.items()] is done. *)
Definition query_pairs (items : list (string * pyval)) : list string :=
  fold_left query_step items [].

(** [_dict_to_query(data, params, base_query)]; a [data] that is not a
    mapping has no [items]. *)
Definition _dict_to_query (data : pydata) (params base_query : bool)
  : res string :=
  match data with
  | DStr _ => Raise (AttributeError "items")
  | DDict items =>
      let query := query_pairs items in
      if params && negb (is_nil query)
      then
        if negb base_query
        then Ret ("?" ++ PyStr.join "&" query)
        else Ret ("&" ++ PyStr.join "&" query)
      else Ret (PyStr.join "&" query)
  end.

(** ** Cookie header *)

(** The loop [cookie_str += '{}={}; '.format(k, v)]. *)
Definition cookie_loop (cookies : list (string * string)) : string :=
  fold_left (fun cookie_str kv =>
               cookie_str ++ fst kv ++ "=" ++ snd kv ++ "; ")
            cookies "".

(** The value stored under [Cookie]: [cookie_str[:-1]]. *)
Definition cookie_header (cookies : list (string * string)) : string :=
  PyStr.drop_last (cookie_loop cookies).

(** ** HTTP events, responses and the request object *)

Definition dquote : string := String "034"%char "".
Definition crlf : string := String "013"%char (String "010"%char "").

(** The head of a response as h11 delivers it: header names arrive
    lower-cased. *)
Record h11_response : Type := H11Response {
  ev_status_code : Z;
  ev_reason : string;
  ev_http_version : string;
  ev_headers : list (string * string) }.

(** The h11 events the response consumer tells apart. *)
Inductive event : Type :=
| EvResponse (r : h11_response)
| EvData (data : string)
| EvEndOfMessage.

(** The [body] entry of [resp_data]: bytes, or a [StreamBody] bound to a
    socket. *)
Inductive body_t : Type :=
| BBytes (b : string)
| BStream (sock : nat).

(** Modelled from the spec: [response_objects.Response] is not under src/.
    It is built from [{encoding, method, status_code, reason_phrase,
    http_version, headers, body}] and exposes [parse_cookies],
    [guess_encoding] and a mutable [history].  request.py only ever binds
    [history] to the request's own [history_objects] list, so the field
    records that binding; the list itself stays in the request. *)
Record Response : Type := MkResponse {
  resp_encoding : string;
  resp_method : string;
  status_code : Z;
  reason_phrase : string;
  http_version : string;
  resp_headers : CIDict.t;
  body : body_t;
  resp_cookies : list string;
  history_bound : bool }.

Definition set_resp_encoding (x : string) (r : Response) : Response :=
  MkResponse x (resp_method r) (status_code r) (reason_phrase r)
    (http_version r) (resp_headers r) (body r) (resp_cookies r)
    (history_bound r).

Definition set_resp_cookies (x : list string) (r : Response) : Response :=
  MkResponse (resp_encoding r) (resp_method r) (status_code r)
    (reason_phrase r) (http_version r) (resp_headers r) (body r) x
    (history_bound r).

Definition bind_history (r : Response) : Response :=
  MkResponse (resp_encoding r) (resp_method r) (status_code r)
    (reason_phrase r) (http_version r) (resp_headers r) (body r)
    (resp_cookies r) true.

(** Modelled from the spec: [auth.PreResponseAuth] and
    [auth.PostResponseAuth] are not under src/.  A strategy is of one of
    the two kinds (or of neither) and carries the [auth_attempted] flag. *)
Inductive auth_kind : Type := PreResponseAuth | PostResponseAuth | OtherAuth.

Record Auth : Type := MkAuth {
  kind : auth_kind;
  auth_attempted : bool }.

(** The attributes of a [Request].  [encoding] names the codec, [callback]
    holds whether a callback was given, [auth_off_domain] its truth value,
    [sock] the identity of the socket object, [is_dsession] whether
    [self.session] is a [DSession], [persist_cookies] the responses the
    cookie tracker has stored.  [scheme], [netloc], [path] and [query] are
    None until [make_request] first assigns them, and are never read
    before; they start as the empty string here. *)
Record Request : Type := MkRequest {
  method : string;
  uri : string;
  port : string;
  encoding : string;
  auth : option Auth;
  auth_off_domain : bool;
  data : option pydata;
  params : option pydata;
  headers : option (list (string * string));
  json : option pyval;
  files : option (list (string * pyval));
  cookies : list (string * string);
  callback : bool;
  stream : option bool;
  max_redirects : Z;
  sock : nat;
  persist_cookies : option (list Response);
  is_dsession : bool;
  history_objects : list Response;
  scheme : string;
  netloc : string;
  path : string;
  query : string;
  initial_scheme : option string;
  initial_netloc : option string;
  streaming : bool }.

Definition set_method (x : string) (r : Request) : Request :=
  MkRequest x (uri r) (port r) (encoding r) (auth r) (auth_off_domain r)
    (data r) (params r) (headers r) (json r) (files r) (cookies r)
    (callback r) (stream r) (max_redirects r) (sock r) (persist_cookies r)
    (is_dsession r) (history_objects r) (scheme r) (netloc r) (path r)
    (query r) (initial_scheme r) (initial_netloc r) (streaming r).

Definition set_uri (x : string) (r : Request) : Request :=
  MkRequest (method r) x (port r) (encoding r) (auth r) (auth_off_domain r)
    (data r) (params r) (headers r) (json r) (files r) (cookies r)
    (callback r) (stream r) (max_redirects r) (sock r) (persist_cookies r)
    (is_dsession r) (history_objects r) (scheme r) (netloc r) (path r)
    (query r) (initial_scheme r) (initial_netloc r) (streaming r).

Definition set_port (x : string) (r : Request) : Request :=
  MkRequest (method r) (uri r) x (encoding r) (auth r) (auth_off_domain r)
    (data r) (params r) (headers r) (json r) (files r) (cookies r)
    (callback r) (stream r) (max_redirects r) (sock r) (persist_cookies r)
    (is_dsession r) (history_objects r) (scheme r) (netloc r) (path r)
    (query r) (initial_scheme r) (initial_netloc r) (streaming r).

Definition set_auth (x : option Auth) (r : Request) : Request :=
  MkRequest (method r) (uri r) (port r) (encoding r) x (auth_off_domain r)
    (data r) (params r) (headers r) (json r) (files r) (cookies r)
    (callback r) (stream r) (max_redirects r) (sock r) (persist_cookies r)
    (is_dsession r) (history_objects r) (scheme r) (netloc r) (path r)
    (query r) (initial_scheme r) (initial_netloc r) (streaming r).

Definition set_data (x : option pydata) (r : Request) : Request :=
  MkRequest (method r) (uri r) (port r) (encoding r) (auth r)
    (auth_off_domain r) x (params r) (headers r) (json r) (files r)
    (cookies r) (callback r) (stream r) (max_redirects r) (sock r)
    (persist_cookies r) (is_dsession r) (history_objects r) (scheme r)
    (netloc r) (path r) (query r) (initial_scheme r) (initial_netloc r)
    (streaming r).

Definition set_json (x : option pyval) (r : Request) : Request :=
  MkRequest (method r) (uri r) (port r) (encoding r) (auth r)
    (auth_off_domain r) (data r) (params r) (headers r) x (files r)
    (cookies r) (callback r) (stream r) (max_redirects r) (sock r)
    (persist_cookies r) (is_dsession r) (history_objects r) (scheme r)
    (netloc r) (path r) (query r) (initial_scheme r) (initial_netloc r)
    (streaming r).

Definition set_files (x : option (list (string * pyval))) (r : Request)
  : Request :=
  MkRequest (method r) (uri r) (port r) (encoding r) (auth r)
    (auth_off_domain r) (data r) (params r) (headers r) (json r) x (cookies r)
    (callback r) (stream r) (max_redirects r) (sock r) (persist_cookies r)
    (is_dsession r) (history_objects r) (scheme r) (netloc r) (path r)
    (query r) (initial_scheme r) (initial_netloc r) (streaming r).

Definition set_cookies (x : list (string * string)) (r : Request) : Request :=
  MkRequest (method r) (uri r) (port r) (encoding r) (auth r)
    (auth_off_domain r) (data r) (params r) (headers r) (json r) (files r) x
    (callback r) (stream r) (max_redirects r) (sock r) (persist_cookies r)
    (is_dsession r) (history_objects r) (scheme r) (netloc r) (path r)
    (query r) (initial_scheme r) (initial_netloc r) (streaming r).

Definition set_max_redirects (x : Z) (r : Request) : Request :=
  MkRequest (method r) (uri r) (port r) (encoding r) (auth r)
    (auth_off_domain r) (data r) (params r) (headers r) (json r) (files r)
    (cookies r) (callback r) (stream r) x (sock r) (persist_cookies r)
    (is_dsession r) (history_objects r) (scheme r) (netloc r) (path r)
    (query r) (initial_scheme r) (initial_netloc r) (streaming r).

Definition set_sock (x : nat) (r : Request) : Request :=
  MkRequest (method r) (uri r) (port r) (encoding r) (auth r)
    (auth_off_domain r) (data r) (params r) (headers r) (json r) (files r)
    (cookies r) (callback r) (stream r) (max_redirects r) x
    (persist_cookies r) (is_dsession r) (history_objects r) (scheme r)
    (netloc r) (path r) (query r) (initial_scheme r) (initial_netloc r)
    (streaming r).

Definition set_persist_cookies (x : option (list Response)) (r : Request)
  : Request :=
  MkRequest (method r) (uri r) (port r) (encoding r) (auth r)
    (auth_off_domain r) (data r) (params r) (headers r) (json r) (files r)
    (cookies r) (callback r) (stream r) (max_redirects r) (sock r) x
    (is_dsession r) (history_objects r) (scheme r) (netloc r) (path r)
    (query r) (initial_scheme r) (initial_netloc r) (streaming r).

Definition set_history_objects (x : list Response) (r : Request) : Request :=
  MkRequest (method r) (uri r) (port r) (encoding r) (auth r)
    (auth_off_domain r) (data r) (params r) (headers r) (json r) (files r)
    (cookies r) (callback r) (stream r) (max_redirects r) (sock r)
    (persist_cookies r) (is_dsession r) x (scheme r) (netloc r) (path r)
    (query r) (initial_scheme r) (initial_netloc r) (streaming r).

Definition set_scheme (x : string) (r : Request) : Request :=
  MkRequest (method r) (uri r) (port r) (encoding r) (auth r)
    (auth_off_domain r) (data r) (params r) (headers r) (json r) (files r)
    (cookies r) (callback r) (stream r) (max_redirects r) (sock r)
    (persist_cookies r) (is_dsession r) (history_objects r) x (netloc r)
    (path r) (query r) (initial_scheme r) (initial_netloc r) (streaming r).

Definition set_netloc (x : string) (r : Request) : Request :=
  MkRequest (method r) (uri r) (port r) (encoding r) (auth r)
    (auth_off_domain r) (data r) (params r) (headers r) (json r) (files r)
    (cookies r) (callback r) (stream r) (max_redirects r) (sock r)
    (persist_cookies r) (is_dsession r) (history_objects r) (scheme r) x
    (path r) (query r) (initial_scheme r) (initial_netloc r) (streaming r).

Definition set_path (x : string) (r : Request) : Request :=
  MkRequest (method r) (uri r) (port r) (encoding r) (auth r)
    (auth_off_domain r) (data r) (params r) (headers r) (json r) (files r)
    (cookies r) (callback r) (stream r) (max_redirects r) (sock r)
    (persist_cookies r) (is_dsession r) (history_objects r) (scheme r)
    (netloc r) x (query r) (initial_scheme r) (initial_netloc r) (streaming r).

Definition set_query (x : string) (r : Request) : Request :=
  MkRequest (method r) (uri r) (port r) (encoding r) (auth r)
    (auth_off_domain r) (data r) (params r) (headers r) (json r) (files r)
    (cookies r) (callback r) (stream r) (max_redirects r) (sock r)
    (persist_cookies r) (is_dsession r) (history_objects r) (scheme r)
    (netloc r) (path r) x (initial_scheme r) (initial_netloc r) (streaming r).

Definition set_initial_scheme (x : option string) (r : Request) : Request :=
  MkRequest (method r) (uri r) (port r) (encoding r) (auth r)
    (auth_off_domain r) (data r) (params r) (headers r) (json r) (files r)
    (cookies r) (callback r) (stream r) (max_redirects r) (sock r)
    (persist_cookies r) (is_dsession r) (history_objects r) (scheme r)
    (netloc r) (path r) (query r) x (initial_netloc r) (streaming r).

Definition set_initial_netloc (x : option string) (r : Request) : Request :=
  MkRequest (method r) (uri r) (port r) (encoding r) (auth r)
    (auth_off_domain r) (data r) (params r) (headers r) (json r) (files r)
    (cookies r) (callback r) (stream r) (max_redirects r) (sock r)
    (persist_cookies r) (is_dsession r) (history_objects r) (scheme r)
    (netloc r) (path r) (query r) (initial_scheme r) x (streaming r).

Definition set_streaming (x : bool) (r : Request) : Request :=
  MkRequest (method r) (uri r) (port r) (encoding r) (auth r)
    (auth_off_domain r) (data r) (params r) (headers r) (json r) (files r)
    (cookies r) (callback r) (stream r) (max_redirects r) (sock r)
    (persist_cookies r) (is_dsession r) (history_objects r) (scheme r)
    (netloc r) (path r) (query r) (initial_scheme r) (initial_netloc r) x.

(** A request as handed to h11 and written to the socket: method, target,
    [asks_headers.items()] and the body, if any. *)
Record h11_request : Type := H11Request {
  rq_method : string;
  rq_target : string;
  rq_headers : CIDict.t;
  rq_body : option string }.

(** ** The world outside the request object

    [wire] holds the events h11 will yield from what the server has written
    to the current socket and the client has not read yet; [sent] the
    requests written so far, oldest first; [inactive] the sockets whose
    [_active] flag was cleared; [retired] the sockets handed to
    [session._replace_connection]; [next_sock] the identity of the next
    socket the session hands out; [callback_log] the chunks passed to the
    user's callback. *)
Record World : Type := MkWorld {
  wire : list event;
  sent : list h11_request;
  inactive : list nat;
  retired : list nat;
  next_sock : nat;
  callback_log : list string }.

Definition set_wire (x : list event) (w : World) : World :=
  MkWorld x (sent w) (inactive w) (retired w) (next_sock w) (callback_log w).

Definition set_sent (x : list h11_request) (w : World) : World :=
  MkWorld (wire w) x (inactive w) (retired w) (next_sock w) (callback_log w).

Definition set_inactive (x : list nat) (w : World) : World :=
  MkWorld (wire w) (sent w) x (retired w) (next_sock w) (callback_log w).

Definition set_retired (x : list nat) (w : World) : World :=
  MkWorld (wire w) (sent w) (inactive w) x (next_sock w) (callback_log w).

Definition set_next_sock (x : nat) (w : World) : World :=
  MkWorld (wire w) (sent w) (inactive w) (retired w) x (callback_log w).

Definition set_callback_log (x : list string) (w : World) : World :=
  MkWorld (wire w) (sent w) (inactive w) (retired w) (next_sock w) x.

(** The collaborators request.py calls but does not define. *)
Record Env : Type := MkEnv {
  (** [str(randint(1e3, 9e3))], drawn once when the module is loaded *)
  rand_suffix : string;
  (** [mimetypes.guess_type]: the pair (type, encoding) *)
  guess_type : string -> option string * option string;
  (** the file system: the contents of a readable path *)
  read_file : string -> option string;
  (** the file system: what [open] raises on a path that cannot be read
      ([FileNotFoundError], or another [OSError] for a directory, a
      refused permission or a name that is too long, [ValueError] for an
      embedded NUL) *)
  open_error : string -> exn;
  (** [json.dumps] *)
  json_dumps : pyval -> string;
  (** the codec registry: [bytes(text, encoding)], the bytes of a text
      under the codec of that name *)
  encode : string -> string -> string;
  (** the interpreter: whether [urlsplit] refuses this host between
      square brackets ([_check_bracketed_host], which Python has from
      3.11.4 on; an earlier interpreter refuses none) *)
  refuses_host : string -> bool;
  (** a pre-response strategy called on the request *)
  pre_auth : Request -> list (string * string);
  (** a post-response strategy called on a 401 response and the request *)
  post_auth : Response -> Request -> list (string * string);
  (** [Response._parse_cookies(netloc)]: the cookies it finds *)
  parse_cookies : string -> Response -> list string;
  (** [Response._guess_encoding()]: the encoding it settles on *)
  guess_encoding : Response -> string;
  (** [CookieTracker.get_additional_cookies(netloc, path)] *)
  additional_cookies :
    list Response -> string -> string -> list (string * string);
  (** the port of the connection the session opens for a uri *)
  grab_port : string -> string;
  (** the server: the events answering the latest of the requests sent *)
  server : list h11_request -> list event }.

(** ** The state monad *)

Record St : Type := MkSt {
  self : Request;
  world : World }.

Definition M (A : Type) : Type := St -> res A * St.

Definition ret {A} (a : A) : M A := fun st => (Ret a, st).

Definition raise {A} (e : exn) : M A := fun st => (Raise e, st).

Definition out_of_fuel {A} : M A := fun st => (OutOfFuel, st).

Definition bind {A B} (m : M A) (k : A -> M B) : M B :=
  fun st =>
    match m st with
    | (Ret a, st') => k a st'
    | (Raise e, st') => (Raise e, st')
    | (OutOfFuel, st') => (OutOfFuel, st')
    end.

Declare Scope m_scope.
Delimit Scope m_scope with M.
Notation "x <- m ;; k" := (bind m (fun x => k))
  (at level 61, m at next level, right associativity) : m_scope.
Notation "' pat <- m ;; k" := (bind m (fun x => match x with pat => k end))
  (at level 61, pat pattern, m at next level, right associativity) : m_scope.
Notation "m ;; k" := (bind m (fun _ => k))
  (at level 61, right associativity) : m_scope.

Definition lift_res {A} (r : res A) : M A := fun st => (r, st).

Definition get_self : M Request := fun st => (Ret (self st), st).

Definition modify_self (f : Request -> Request) : M unit :=
  fun st => (Ret tt, MkSt (f (self st)) (world st)).

Definition modify_world (f : World -> World) : M unit :=
  fun st => (Ret tt, MkSt (self st) (f (world st))).

(** [try: m  except <handled>: h]. *)
Definition try_except {A} (m : M A) (handled : exn -> bool) (h : M A)
  : M A :=
  fun st =>
    match m st with
    | (Raise e, st') => if handled e then h st' else (Raise e, st')
    | r => r
    end.

Definition is_KeyError (e : exn) : bool :=
  match e with KeyError _ => true | _ => false end.

Definition when (b : bool) (m : M unit) : M unit :=
  if b then m else ret tt.

(** ** Values that only exist because Python is untyped *)

(** What [_request_io] holds in [response_obj]: a [Response], or the pair
    [(sock, response)] that [make_request] returns. *)
Inductive robj : Type :=
| OResp (r : Response)
| OTuple (s : option nat) (r : Response).

(** What [_redirect] holds in [allow_redirect]: [True], or the coroutine
    object made by calling the [async def _location_auth_protect] without
    awaiting it; [pending] is what the coroutine would return if it were
    ever run. *)
Inductive allow_t : Type :=
| AllowTrue
| AllowCoroutine (pending : res (option bool)).

(** Truthiness: [True] is true, and a coroutine object, like every object
    that defines neither [__bool__] nor [__len__], is true. *)
Definition allow_truthy (a : allow_t) : bool :=
  match a with
  | AllowTrue => true
  | AllowCoroutine _ => true
  end.

Definition hval_eqb (a b : hval) : bool :=
  match a, b with
  | HStr x, HStr y => String.eqb x y
  | HList x, HList y =>
      if list_eq_dec string_dec x y then true else false
  | HNone, HNone => true
  | _, _ => false
  end.

Definition opt_str_truthy (o : option string) : bool :=
  match o with Some s => PyStr.truthy s | None => false end.

(** [s == o] for a string [s] and an attribute that may still be [None]. *)
Definition eq_opt (s : string) (o : option string) : bool :=
  match o with Some t => String.eqb s t | None => false end.

(** [l[-1]] of a non-empty list. *)
Definition last_opt {A} (l : list A) : option A :=
  match l with [] => None | x :: r => Some (List.last r x) end.

(** ** Multipart encoder *)

Definition hder_format (k : string) : string :=
  "Content-Disposition: form-data; name=" ++ dquote ++ k ++ dquote.

Definition hder_format_io (f : string) : string :=
  "; filename=" ++ dquote ++ f ++ dquote.

(** [except (TypeError, FileNotFoundError)]. *)
Definition is_TypeError_or_FileNotFoundError (e : exn) : bool :=
  match e with
  | TypeError _ | FileNotFoundError => true
  | _ => false
  end.

(** The [except (TypeError, FileNotFoundError)] branch: the value as
    literal text. *)
Definition literal_part (multip_pkg k v : string) : string :=
  multip_pkg ++ hder_format k ++ crlf ++ crlf ++ v ++ crlf.

Section Core.

Variable E : Env.

Definition _BOUNDARY : string :=
  "8banana133744910kmmr13ay5fa56" ++ rand_suffix E.

(** One turn of the loop of [_multipart], up to the test on [index].  A
    value that is not a string is rejected by [bytes(v, encoding)] in
    the handler.  An error of [open] that the handler does not name
    leaves [_multipart]. *)
Definition multipart_part (multip_pkg k : string) (v : pyval)
  : res string :=
  let multip_pkg := multip_pkg ++ "--" ++ _BOUNDARY ++ crlf in
  match v with
  | VAtom (AStr v) =>
      match read_file E v with
      | Some contents =>
          let pkg_body := contents ++ crlf in
          let multip_pkg :=
            multip_pkg ++ hder_format k
                       ++ hder_format_io (PyStr.basename v) in
          let mime_type := guess_type E (PyStr.basename v) in
          if negb (opt_str_truthy (snd mime_type))
          then Ret (multip_pkg ++ "; Content-Type: "
                      ++ "application/octet-stream"
                      ++ crlf ++ crlf ++ pkg_body)
          else
            match mime_type with
            | (Some ty, Some enc) =>
                Ret (multip_pkg ++ "; Content-Type: " ++ ty ++ "/" ++ enc
                       ++ crlf ++ crlf ++ pkg_body)
            | _ =>
                (* '/'.join((None, enc)) raises TypeError *)
                Ret (literal_part multip_pkg k v)
            end
      | None =>
          if is_TypeError_or_FileNotFoundError (open_error E v)
          then Ret (literal_part multip_pkg k v)
          else Raise (open_error E v)
      end
  | _ => Raise (TypeError "bytes")
  end.

Fixpoint multipart_loop (multip_pkg : string) (index num_of_parts : nat)
         (items : list (string * pyval)) : res string :=
  match items with
  | [] => Ret multip_pkg
  | (k, v) :: rest =>
      match multipart_part multip_pkg k v with
      | Ret pkg =>
          let pkg :=
            if Nat.eqb index num_of_parts
            then pkg ++ "--" ++ _BOUNDARY ++ "--" ++ crlf
            else pkg in
          multipart_loop pkg (S index) num_of_parts rest
      | Raise e => Raise e
      | OutOfFuel => OutOfFuel
      end
  end.

(** [_multipart(files_dict)]. *)
Definition _multipart (files_dict : list (string * pyval)) : res string :=
  multipart_loop "" 1 (List.length files_dict) files_dict.

(** ** Request assembler *)

Definition with_len (c_type : hval) (body : string)
  : hval * string * string :=
  (c_type, PyStr.of_nat (String.length body), body).

(** [_formulate_body]: content type, length and body. *)
Definition _formulate_body (self : Request)
  : res (hval * string * string) :=
  let multipart_ctype := "multipart/form-data; boundary=" ++ _BOUNDARY in
  match files self, data self with
  | Some f, Some (DDict d) =>
      match _multipart (Dict.update f d) with
      | Ret body => Ret (with_len (HStr multipart_ctype) body)
      | Raise e => Raise e
      | OutOfFuel => OutOfFuel
      end
  | Some f, Some (DStr _) => Raise (TypeError "mapping")
  | Some f, None =>
      match _multipart f with
      | Ret body => Ret (with_len (HStr multipart_ctype) body)
      | Raise e => Raise e
      | OutOfFuel => OutOfFuel
      end
  | None, Some d =>
      match _dict_to_query d false false, d with
      | Ret body, _ =>
          Ret (with_len (HStr "application/x-www-form-urlencoded") body)
      | Raise (AttributeError _), DStr s =>
          Ret (with_len (HStr " text/html") s)
      | Raise e, _ => Raise e
      | OutOfFuel, _ => OutOfFuel
      end
  | None, None =>
      match json self with
      | Some j => Ret (with_len (HStr "application/json") (json_dumps E j))
      | None => Ret (with_len HNone "")
      end
  end.

(** [_build_path]: the only exception [_dict_to_query] raises is the
    [AttributeError] of a [params] that is a string, which is handled. *)
Definition _build_path (self : Request) : Request :=
  let self :=
    if negb (PyStr.truthy (path self)) then set_path "/" self else self in
  let self :=
    if PyStr.truthy (query self)
    then set_path (path self ++ "?" ++ query self) self else self in
  match params self with
  | Some p =>
      if data_truthy p then
        match
          (if PyStr.truthy (query self)
           then _dict_to_query p true true
           else _dict_to_query p true false), p
        with
        | Ret q, _ => set_path (path self ++ q) self
        | _, DStr s => set_path (path self ++ "?" ++ _queryify s) self
        | _, _ => self
        end
      else self
  | None => self
  end.

(** ** Authentication handlers *)

Definition _auth_handler_pre (self : Request) : list (string * string) :=
  match auth self with
  | Some a =>
      match kind a with
      | PreResponseAuth => pre_auth E self
      | _ => []
      end
  | None => []
  end.

Definition _auth_handler_post_get_auth (self : Request)
  : list (string * string) * Request :=
  match auth self with
  | Some a =>
      match kind a with
      | PostResponseAuth =>
          match last_opt (history_objects self) with
          | Some authable_resp =>
              if (status_code authable_resp =? 401)
                 && negb (auth_attempted a)
              then
                let self := set_auth (Some (MkAuth (kind a) true)) self in
                (post_auth E authable_resp self, self)
              else ([], self)
          | None => ([], self)
          end
      | _ => ([], self)
      end
  | None => ([], self)
  end.

Definition opt_truthy {A} (t : A -> bool) (o : option A) : bool :=
  match o with Some a => t a | None => false end.

(** [make_request] up to the call of [_request_io], in the order of the
    source. *)

(** The attributes refreshed from [self.uri], and the initial scheme and
    authority captured unless [redirect] is set.  [self.uri] is the uri
    for which the session has supplied the socket and the port, or one
    that [_redirect] has parsed and assigned: the [ValueError] of
    [urlparse] is embedded where a string that has not been parsed
    enters, in [_redirect]. *)
Definition parse_uri (redirect : bool) (self : Request) : Request :=
  let u := Url.urlparse (uri self) in
  let self :=
    set_query (Url.query u)
      (set_path (Url.path u)
         (set_netloc (Url.netloc u) (set_scheme (Url.scheme u) self))) in
  if negb redirect
  then set_initial_netloc (Some (netloc self))
         (set_initial_scheme (Some (scheme self)) self)
  else self.

(** The default header construction. *)
Definition default_headers (self : Request) : CIDict.t :=
  let host :=
    if String.eqb (port self) "80" || String.eqb (port self) "443"
    then netloc self else netloc self ++ ":" ++ port self in
  CIDict.of_list
    [("Host", HStr host);
     ("Connection", HStr "keep-alive");
     ("Accept-Encoding", HStr "gzip, deflate");
     ("Accept", HStr "*/*");
     ("Content-Length", HStr "0");
     ("User-Agent", HStr "python-asks/0.0.1")].

(** The cookies of the tracker, if there is one, join [self.cookies]. *)
Definition inject_cookies (self : Request) : Request :=
  match persist_cookies self with
  | Some tracker =>
      set_cookies
        (Dict.update (cookies self)
           (additional_cookies E tracker (netloc self) (path self)))
        self
  | None => self
  end.

(** [body = ''], replaced with its headers when any of [data], [files],
    [json] is true. *)
Definition with_body (self : Request) (asks_headers : CIDict.t)
  : res (CIDict.t * string) :=
  if opt_truthy data_truthy (data self)
     || opt_truthy (fun f => negb (is_nil f)) (files self)
     || opt_truthy truthy (json self)
  then
    match _formulate_body self with
    | Ret (content_type, content_len, body) =>
        Ret (CIDict.set "Content-Length" (HStr content_len)
               (CIDict.set "Content-Type" content_type asks_headers),
             body)
    | Raise e => Raise e
    | OutOfFuel => OutOfFuel
    end
  else Ret (asks_headers, "").

(** Custom headers take precedence. *)
Definition with_user_headers (self : Request) (asks_headers : CIDict.t)
  : CIDict.t :=
  match headers self with
  | Some h => CIDict.update asks_headers h
  | None => asks_headers
  end.

Definition with_auth (self : Request) (asks_headers : CIDict.t)
  : CIDict.t * Request :=
  match auth self with
  | Some _ =>
      let h1 := CIDict.update asks_headers (_auth_handler_pre self) in
      let '(post, self) := _auth_handler_post_get_auth self in
      (CIDict.update h1 post, self)
  | None => (asks_headers, self)
  end.

Definition with_cookie_header (self : Request) (asks_headers : CIDict.t)
  : CIDict.t :=
  if negb (is_nil (cookies self))
  then CIDict.set "Cookie" (HStr (cookie_header (cookies self))) asks_headers
  else asks_headers.

(** [isinstance(body, bytes)]: the body [_multipart] builds is bytes, the
    one every other branch of [_formulate_body] leaves is a [str]. *)
Definition body_is_bytes (self : Request) : bool :=
  match files self with Some _ => true | None => false end.

(** The h11 body, if any body: [bytes(body, self.encoding)] unless it is
    bytes already.  Its length was taken by [_formulate_body], before
    this. *)
Definition h11_body (self : Request) (body : string) : option string :=
  if PyStr.truthy body
  then Some (if body_is_bytes self then body
             else encode E (encoding self) body)
  else None.

(** The h11 request, and the request object as the code leaves it (also
    when an exception ends the assembly). *)
Definition assemble (redirect : bool) (self : Request)
  : res h11_request * Request :=
  let self := parse_uri redirect self in
  let asks_headers := default_headers self in
  let self := inject_cookies self in
  let self := _build_path self in
  match with_body self asks_headers with
  | Ret (asks_headers, body) =>
      let asks_headers := with_user_headers self asks_headers in
      let '(asks_headers, self) := with_auth self asks_headers in
      let asks_headers := with_cookie_header self asks_headers in
      (Ret (H11Request (method self) (path self) asks_headers
              (h11_body self body)),
       self)
  | Raise e => (Raise e, self)
  | OutOfFuel => (OutOfFuel, self)
  end.

Local Open Scope m_scope.

(** ** Socket and connection lifecycle *)

(** [_send]: the request, its body and the end-of-message marker are
    written to the socket; the server's answer then waits on the wire. *)
Definition _send (request : h11_request) : M unit :=
  modify_world
    (fun w =>
       let log := (sent w ++ [request])%list in
       set_wire (wire w ++ server E log)%list (set_sent log w)).

(** [_recv_event]: the next event; with nothing left to read, [recv]
    does not deliver and the transport's failure surfaces. *)
Definition _recv_event : M event :=
  fun st =>
    match wire (world st) with
    | [] => (Raise TransportError, st)
    | ev :: rest => (Ret ev, MkSt (self st) (set_wire rest (world st)))
    end.

(** [self.sock._active = False]. *)
Definition deactivate_sock : M unit :=
  fun st =>
    (Ret tt,
     MkSt (self st)
          (set_inactive (sock (self st) :: inactive (world st))
                        (world st))).

(** [session._grab_connection]: a fresh socket, with nothing to read. *)
Definition grab_connection : M nat :=
  fun st =>
    let w := world st in
    (Ret (next_sock w),
     MkSt (self st) (set_wire [] (set_next_sock (S (next_sock w)) w))).

(** [_get_new_sock(off_base_loc)]; [None] is the default [False]. *)
Definition _get_new_sock (off_base_loc : option string) : M unit :=
  deactivate_sock ;;
  s <- get_self ;;
  modify_world (fun w => set_retired (retired w ++ [sock s])%list w) ;;
  new_sock <- grab_connection ;;
  if is_dsession s
  then modify_self
         (fun r => set_port (grab_port E (uri r)) (set_sock new_sock r))
  else
    if negb (opt_str_truthy off_base_loc)
    then modify_self (set_sock new_sock)
    else
      match off_base_loc with
      | Some loc =>
          modify_self
            (fun r => set_port (grab_port E loc) (set_sock new_sock r))
      | None => ret tt
      end.

(** ** Response consumer *)

(** The loop of [_body_callback] over the pending events: every [Data]
    goes to the callback, the first other event is returned. *)
Fixpoint callback_events (pending : list event) (log : list string)
  : res event * list event * list string :=
  match pending with
  | [] => (Raise TransportError, [], log)
  | EvData d :: rest => callback_events rest (log ++ [d])%list
  | ev :: rest => (Ret ev, rest, log)
  end.

Definition _body_callback : M event :=
  fun st =>
    let w := world st in
    let '(r, rest, log) := callback_events (wire w) (callback_log w) in
    (r, MkSt (self st) (set_callback_log log (set_wire rest w))).

(** The buffering loop of [_catch_response]: [Data] is added to the body,
    [EndOfMessage] ends the loop, anything else is passed over. *)
Fixpoint read_body (pending : list event) (body : string)
  : res string * list event :=
  match pending with
  | [] => (Raise TransportError, [])
  | EvData d :: rest => read_body rest (body ++ d)
  | EvEndOfMessage :: rest => (Ret body, rest)
  | EvResponse _ :: rest => read_body rest body
  end.

Definition buffer_body : M string :=
  fun st =>
    let w := world st in
    let '(r, rest) := read_body (wire w) "" in
    (r, MkSt (self st) (set_wire rest w)).

(** The loop over [response.headers] that gathers [set-cookie] values
    into a list. *)
Definition collect_set_cookie (hs : CIDict.t) (header : string * string)
  : CIDict.t :=
  if String.eqb (fst header) "set-cookie"
  then
    match CIDict.get "set-cookie" hs with
    | Ret (HList l) =>
        CIDict.set "set-cookie" (HList (l ++ [snd header])%list) hs
    | _ => CIDict.set "set-cookie" (HList [snd header]) hs
    end
  else hs.

Definition response_headers (response : h11_response) : CIDict.t :=
  fold_left collect_set_cookie (ev_headers response)
    (CIDict.of_list
       (map (fun nv => (fst nv, HStr (snd nv))) (ev_headers response))).

(** [get_body]: [int(headers['content-length']) > 0], and in the
    [except KeyError] handler [headers['transfer-encoding'] ==
    'chunked']. *)
Definition body_expected (hs : CIDict.t) : res bool :=
  match CIDict.get "content-length" hs with
  | Ret (HStr s) =>
      match PyStr.to_Z s with
      | Some n => Ret (0 <? n)
      | None => Raise (ValueError "int")
      end
  | Ret _ => Raise (TypeError "int")
  | Raise (KeyError _) =>
      match CIDict.get "transfer-encoding" hs with
      | Ret v => Ret (hval_eqb v (HStr "chunked"))
      | Raise e => Raise e
      | OutOfFuel => OutOfFuel
      end
  | Raise e => Raise e
  | OutOfFuel => OutOfFuel
  end.

(** The streaming branch of [_catch_response]. *)
Definition enter_streaming (hs : CIDict.t) : M body_t :=
  s <- get_self ;;
  keep <-
    (if eq_opt (scheme s) (initial_scheme s)
        && eq_opt (netloc s) (initial_netloc s)
     then ret true
     else
       c <- lift_res (CIDict.get "connection" hs) ;;
       ret (hval_eqb c (HStr "close"))) ;;
  when (negb keep) deactivate_sock ;;
  modify_self (set_streaming true) ;;
  ret (BStream (sock s)).

Definition _catch_response : M Response :=
  ev <- _recv_event ;;
  match ev with
  | EvResponse response =>
      s <- get_self ;;
      let hs := response_headers response in
      let status := ev_status_code response in
      get_body <- lift_res (body_expected hs) ;;
      body <-
        (if get_body : bool then
           if callback s then
             _body_callback ;; ret (BBytes "")
           else
             match stream s with
             | Some _ =>
                 if (199 <? status) && (status <? 300)
                 then enter_streaming hs
                 else ret (BBytes "")
             | None =>
                 b <- buffer_body ;; ret (BBytes b)
             end
         else
           endof <- _recv_event ;;
           match endof with
           | EvEndOfMessage => ret (BBytes "")
           | _ => raise AssertionError
           end) ;;
      ret (MkResponse (encoding s) (method s) status (ev_reason response)
             (ev_http_version response) hs body [] false)
  | _ => raise (AttributeError "status_code")
  end.

(** ** Redirects and the authentication retry *)

(** [re.match(_WWX_MATCH, s)[0]] for the pattern [\Aww.\.]: subscripting
    the [None] of a failed match raises [TypeError]. *)
Definition wwx_match (s : string) : res string :=
  match s with
  | String "w" (String "w" (String c (String "." _))) =>
      if Ascii.eqb c "010"%char then Raise (TypeError "subscript")
      else Ret (String "w" (String "w" (String c (String "." ""))))
  | _ => Raise (TypeError "subscript")
  end.

Definition domain_of (loc : string) : res string :=
  let sans_port := hd "" (PyStr.split_on ":"%char loc) in
  match wwx_match sans_port with
  | Ret m =>
      let sans_port := PyStr.replace m "" sans_port in
      Ret (PyStr.join "." (PyStr.last_two (PyStr.split_on "."%char sans_port)))
  | Raise e => Raise e
  | OutOfFuel => OutOfFuel
  end.

(** The body of [_location_auth_protect]: [None] is the value of a
    function that ends without [return]. *)
Definition _location_auth_protect (s : Request) (location : string)
  : res (option bool) :=
  match domain_of (netloc s) with
  | Ret base_domain =>
      let l := Url.urlparse location in
      match domain_of (Url.netloc l) with
      | Ret location_domain =>
          if String.eqb base_domain location_domain
          then
            if PyStr.ltb (Url.scheme l) (scheme s)
            then Ret (Some false) else Ret (Some true)
          else Ret None
      | Raise e => Raise e
      | OutOfFuel => OutOfFuel
      end
  | Raise e => Raise e
  | OutOfFuel => OutOfFuel
  end.

(** [v.strip()] / [v.lower()] need a string. *)
Definition as_str (attr : string) (v : hval) : M string :=
  match v with
  | HStr s => ret s
  | _ => raise (AttributeError attr)
  end.

Definition append_history (r : Response) : M unit :=
  modify_self
    (fun s => set_history_objects (history_objects s ++ [r])%list s).

(** [urlparse(url)] with its errors. *)
Definition urlparse_or_raise (url : string) : res Url.parts :=
  if Url.invalid_ipv6 url
  then Raise (ValueError "Invalid IPv6 URL")
  else
    match Url.bracketed_host url with
    | Some h =>
        if refuses_host E h
        then Raise (ValueError "bracketed host")
        else Ret (Url.urlparse url)
    | None => Ret (Url.urlparse url)
    end.

(** The part of [_redirect] that resolves [location] and yields
    [allow_redirect].  The absolute branch parses the stripped location
    a second time, which cannot fail where the first did not. *)
Definition resolve_location (location : string) : M allow_t :=
  s <- get_self ;;
  redirect_uri <- lift_res (urlparse_or_raise (PyStr.strip location)) ;;
  if negb (PyStr.truthy (Url.netloc redirect_uri))
  then
    modify_self
      (set_uri
         (Url.urlunparse
            (Url.Parts (scheme s) (netloc s) (Url.path redirect_uri)
               (Url.params redirect_uri) (Url.query redirect_uri)
               (Url.fragment redirect_uri)))) ;;
    ret AllowTrue
  else
    let location := PyStr.strip location in
    let allow_redirect :=
      match auth s with
      | Some _ =>
          if negb (auth_off_domain s)
          then AllowCoroutine (_location_auth_protect s location)
          else AllowTrue
      | None => AllowTrue
      end in
    modify_self (set_uri location) ;;
    let l := Url.urlparse location in
    when (negb (String.eqb (Url.scheme l) (scheme s))
          || negb (String.eqb (Url.netloc l) (netloc s)))
         (_get_new_sock (Some location)) ;;
    ret allow_redirect.

(** The [try] block of [_redirect] on the Connection header of the 3xx:
    a server that closes the connection gets a new socket; a missing
    header is passed over. *)
Definition replace_if_closed (response : Response) : M unit :=
  try_except
    (c <- lift_res (CIDict.get "connection" (resp_headers response)) ;;
     c <- as_str "lower" c ;;
     when (String.eqb (PyStr.lower c) "close") (_get_new_sock None))
    is_KeyError
    (ret tt).

Section Recursive.

(** The recursive call [self.make_request()]. *)
Variable make_request_rec : M (option nat * Response).

Definition _redirect (response_obj : robj) : M robj :=
  match response_obj with
  | OTuple _ _ => raise (AttributeError "status_code")
  | OResp response =>
      let status := status_code response in
      if (300 <=? status) && (status <? 400) then
        when (status =? 303)
             (modify_self
                (fun s => set_files None (set_json None (set_data None s)))) ;;
        let force_get := negb ((status =? 301) || (status =? 305)) in
        location <- lift_res (CIDict.get "Location" (resp_headers response)) ;;
        location <- as_str "strip" location ;;
        allow_redirect <- resolve_location location ;;
        append_history response ;;
        when force_get (modify_self (set_method "GET")) ;;
        modify_self (fun s => set_max_redirects (max_redirects s - 1) s) ;;
        replace_if_closed response ;;
        if allow_truthy allow_redirect
        then
          '(_, r) <- make_request_rec ;;
          ret (OResp r)
        else ret (OResp response)
      else ret (OResp response)
  end.

Definition _auth_handler_post_check_retry (response_obj : Response)
  : M robj :=
  s <- get_self ;;
  match auth s with
  | Some a =>
      match kind a with
      | PostResponseAuth =>
          if status_code response_obj =? 401 then
            if negb (auth_attempted a) then
              append_history response_obj ;;
              r <- make_request_rec ;;
              modify_self
                (fun s =>
                   match auth s with
                   | Some a => set_auth (Some (MkAuth (kind a) false)) s
                   | None => s
                   end) ;;
              ret (OTuple (fst r) (snd r))
            else ret (OResp (bind_history response_obj))
          else ret (OResp response_obj)
      | _ => ret (OResp response_obj)
      end
  | None => ret (OResp response_obj)
  end.

Definition store_cookies (response_obj : Response) : M unit :=
  modify_self
    (fun s =>
       match persist_cookies s with
       | Some tracker =>
           set_persist_cookies (Some (tracker ++ [response_obj])%list) s
       | None => s
       end).

Definition _request_io (request : h11_request) : M Response :=
  _send request ;;
  response_obj <- _catch_response ;;
  s <- get_self ;;
  let response_obj :=
    set_resp_cookies (parse_cookies E (netloc s) response_obj)
                     response_obj in
  store_cookies response_obj ;;
  let response_obj :=
    set_resp_encoding (guess_encoding E response_obj) response_obj in
  response_obj <-
    (match auth s with
     | Some _ => _auth_handler_post_check_retry response_obj
     | None => ret (OResp response_obj)
     end) ;;
  s <- get_self ;;
  response_obj <-
    (if negb (String.eqb (method s) "HEAD")
     then
       if max_redirects s <? 0
       then raise TooManyRedirects
       else _redirect response_obj
     else ret response_obj) ;;
  match response_obj with
  | OResp r => ret (bind_history r)
  | OTuple _ _ => raise (AttributeError "history")
  end.

Definition make_request_body (redirect : bool)
  : M (option nat * Response) :=
  request <- (fun st =>
                let '(r, s) := assemble redirect (self st) in
                (r, MkSt s (world st))) ;;
  response_obj <- _request_io request ;;
  s <- get_self ;;
  when (redirect
        && negb (eq_opt (scheme s) (initial_scheme s)
                 && eq_opt (netloc s) (initial_netloc s)))
       deactivate_sock ;;
  s <- get_self ;;
  if streaming s
  then ret (None, response_obj)
  else ret (Some (sock s), response_obj).

End Recursive.

(** [make_request(redirect)]: [fuel] bounds the depth of the recursion
    through [_redirect] and [_auth_handler_post_check_retry], both of
    which call [self.make_request()] with the default [redirect=False]. *)
Fixpoint make_request (fuel : nat) (redirect : bool)
  : M (option nat * Response) :=
  match fuel with
  | O => out_of_fuel
  | S fuel' => make_request_body (make_request fuel' false) redirect
  end.

End Core.

(** ** Worked exchanges

    Concrete collaborators, requests and servers on which the orchestrator
    is run. *)

Module Demo.

(** A MIME table that knows [.txt], a file system with one file and one
    directory, a pre-response strategy that sends Basic credentials. *)
Definition env (srv : list h11_request -> list event) : Env :=
  MkEnv "1234"
    (fun f => if String.eqb f "a.txt" then (Some "text/plain", None)
              else (None, None))
    (fun p => if String.eqb p "/tmp/a.txt" then Some "hello" else None)
    (fun p => if String.eqb p "/tmp" then OSError "IsADirectoryError"
              else FileNotFoundError)
    (fun _ => "{}")
    (fun enc text =>
       if String.eqb (PyStr.lower enc) "utf-8"
       then PyStr.encode_utf8 text else text)
    (fun _ => false)
    (fun _ => [("Authorization", "Basic dXNlcjpwdw==")])
    (fun _ _ => [("Authorization", "Digest response=0")])
    (fun _ _ => [])
    (fun _ => "utf-8")
    (fun _ _ _ => [])
    (fun _ => "80")
    srv.

(** [Request(session, 'GET', uri, '80', encoding='utf-8', sock=sock0)]
    as [__init__] leaves it. *)
Definition configured (u : string) (a : option Auth) (off_domain : bool)
           (sm : option bool) (redirects : Z) : Request :=
  MkRequest "GET" u "80" "utf-8" a off_domain None None None None None []
    false sm redirects 0 None false [] "" "" "" "" None None false.

Definition request (u : string) : Request :=
  configured u None false None 20.

Definition world0 : World := MkWorld [] [] [] [] 1 [].

Definition start (r : Request) : St := MkSt r world0.

Definition redirect_to (loc : string) : list event :=
  [EvResponse
     (H11Response 302 "Found" "1.1"
        [("location", loc); ("content-length", "0")]);
   EvEndOfMessage].

Definition ok_hi : list event :=
  [EvResponse (H11Response 200 "OK" "1.1" [("content-length", "2")]);
   EvData "hi"; EvEndOfMessage].

Definition unauthorized : list event :=
  [EvResponse
     (H11Response 401 "Unauthorized" "1.1" [("content-length", "0")]);
   EvEndOfMessage].

Definition not_found : list event :=
  [EvResponse (H11Response 404 "Not Found" "1.1" [("content-length", "5")]);
   EvData "oops!"; EvEndOfMessage].

Definition bare_ok : list event :=
  [EvResponse (H11Response 200 "OK" "1.1" []); EvEndOfMessage].

(** A 302 that carries a Location and no header on the length of its
    body. *)
Definition bare_redirect_to (loc : string) : list event :=
  [EvResponse (H11Response 302 "Found" "1.1" [("location", loc)]);
   EvEndOfMessage].

(** A server that redirects the first request to [loc] and answers 200
    afterwards. *)
Definition redirect_once (loc : string) (log : list h11_request)
  : list event :=
  match log with
  | [_] => redirect_to loc
  | _ => ok_hi
  end.

Definition always (evs : list event) (log : list h11_request)
  : list event := evs.

End Demo.

(** * Vocabulary of the properties *)

(** No whitespace is left in a value once its words are joined by [+]. *)
Definition no_space (s : string) : bool :=
  forallb (fun c => negb (PyStr.is_space c)) (list_ascii_of_string s).

(** The attributes of the request that neither the assembler nor the
    connection manager writes. *)
Definition ctl (s : Request) :=
  (method s, max_redirects s, callback s, stream s,
   (files s, data s, json s)).







(** The characters a query or form string may hold once encoded: the
    ones [quote] never escapes, the ones [_queryify] declares safe, and
    the percent sign of an escape. *)
Definition url_safe_char (c : ascii) : bool :=
  Url.always_safe c || Url.mem_char c "/=+?&" || Ascii.eqb c "%"%char.

Definition url_safe (s : string) : bool :=
  forallb url_safe_char (list_ascii_of_string s).

(** [s] ends with [suffix]. *)
Definition ends_with (suffix s : string) : Prop :=
  exists front, s = front ++ suffix.

(** Requests on which the further properties are tried. *)
Module Samples.

(** A GET whose [path] and [query] have been parsed already, with [params]
    still to be added by [_build_path]. *)
Definition parsed (pth qry : string) (prm : option pydata) : Request :=
  MkRequest "GET" "" "80" "utf-8" None false None prm None None None []
    false None 20 0 None false [] "http" "a.com" pth qry None None false.

(** A request for [u] with the body sources and user headers given. *)
Definition sourced (u : string) (d : option pydata)
           (f : option (list (string * pyval))) (j : option pyval)
           (h : option (list (string * string))) : Request :=
  MkRequest "POST" u "8080" "utf-8" None false d None h j f []
    false None 20 0 None false [] "" "" "" "" None None false.

(** A form post to port 8080. *)
Definition form_post : Request :=
  sourced "http://a.com/form"
    (Some (DDict [("a", VAtom (AStr "x y")); ("b", VList [AInt 1; AInt 2])]))
    None None None.

(** A bodiless response with the given status and a Location, as the
    consumer builds it. *)
Definition redirecting (status : Z) (loc : string) : Response :=
  MkResponse "utf-8" "POST" status "Redirect" "1.1"
    (response_headers
       (H11Response status "Redirect" "1.1"
          [("location", loc); ("content-length", "0")]))
    (BBytes "") [] false.

End Samples.








(** * Properties *)

(** ** Generic facts about the state monad *)

Lemma bind_ret_inv {A B} (m : M A) (k : A -> M B) st b st' :
  bind m k st = (Ret b, st') ->
  exists a st1, m st = (Ret a, st1) /\ k a st1 = (Ret b, st').
Proof.
  unfold bind. destruct (m st) as [[a | e | ] st1]; intros H.
  - exists a, st1. split; [reflexivity | exact H].
  - discriminate H.
  - discriminate H.
Qed.

Lemma bind_ret {A B} (m : M A) (k : A -> M B) st a st1 :
  m st = (Ret a, st1) -> bind m k st = k a st1.
Proof. unfold bind. intros ->. reflexivity. Qed.


(** ** The query / form codec *)

Section Codec.

Local Open Scope list_scope.

Lemma fold_left_snoc {A B} (f : A -> B) (l : list A) (q : list B) :
  fold_left (fun q x => q ++ [f x]) l q = q ++ map f l.
Proof.
  revert q. induction l as [| x l IH]; intros q; simpl.
  - now rewrite app_nil_r.
  - rewrite IH, <- app_assoc. reflexivity.
Qed.

Lemma query_step_list q k l :
  query_step q (k, VList l)
  = q ++ map (fun elm => _queryify (k ++ "=" ++ plus_joined elm)%string) l.
Proof.
  unfold query_step. destruct l as [| a l].
  - simpl. now rewrite app_nil_r.
  - cbn [truthy is_nil negb]. now rewrite fold_left_snoc.
Qed.

Lemma query_step_dict q k d :
  query_step q (k, VDict d)
  = q ++ map (fun key => _queryify (k ++ "=" ++ key)%string) (map fst d).
Proof.
  unfold query_step. destruct d as [| a d].
  - simpl. now rewrite app_nil_r.
  - cbn [truthy is_nil negb]. now rewrite fold_left_snoc.
Qed.

Lemma query_step_app q kv : query_step q kv = q ++ query_step [] kv.
Proof.
  destruct kv as [k v]. destruct v as [a | d | l].
  - unfold query_step.
    destruct (negb (truthy (VAtom a))); [now rewrite app_nil_r |].
    destruct (is_str_or_number a); [reflexivity | now rewrite app_nil_r].
  - now rewrite !query_step_dict.
  - now rewrite !query_step_list.
Qed.

Lemma fold_query_step items q :
  fold_left query_step items q = q ++ flat_map (query_step []) items.
Proof.
  revert q. induction items as [| kv items IH]; intros q; simpl.
  - now rewrite app_nil_r.
  - rewrite IH, (query_step_app q kv), <- app_assoc. reflexivity.
Qed.

Lemma query_pairs_flat items :
  query_pairs items = flat_map (query_step []) items.
Proof. unfold query_pairs. now rewrite fold_query_step. Qed.

End Codec.

Lemma no_space_append a b :
  no_space (a ++ b) = no_space a && no_space b.
Proof.
  unfold no_space. induction a as [| c a IH]; simpl.
  - reflexivity.
  - rewrite IH, andb_assoc. reflexivity.
Qed.

Lemma split_ws_from_no_space s : forall cur,
  no_space cur = true ->
  forallb no_space (PyStr.split_ws_from cur s) = true.
Proof.
  induction s as [| c s IH]; intros cur Hcur; simpl.
  - destruct (PyStr.is_empty cur); simpl; [reflexivity | now rewrite Hcur].
  - destruct (PyStr.is_space c) eqn:Hc.
    + destruct (PyStr.is_empty cur); simpl.
      * now apply IH.
      * rewrite Hcur. now apply IH.
    + apply IH. unfold PyStr.snoc. rewrite no_space_append, Hcur.
      unfold no_space. simpl. now rewrite Hc.
Qed.

Lemma join_plus_no_space l :
  forallb no_space l = true -> no_space (PyStr.join "+" l) = true.
Proof.
  induction l as [| p l IH]; intros H.
  - reflexivity.
  - apply andb_prop in H. destruct H as [Hp Hl].
    destruct l as [| p' l'].
    + exact Hp.
    + change (PyStr.join "+" (p :: p' :: l'))
        with (p ++ "+" ++ PyStr.join "+" (p' :: l')).
      rewrite !no_space_append, Hp, (IH Hl). reflexivity.
Qed.

Lemma plus_joined_no_space a : no_space (plus_joined a) = true.
Proof.
  unfold plus_joined, PyStr.split_ws.
  apply join_plus_no_space, split_ws_from_no_space. reflexivity.
Qed.

(** C8. Encoding {"a": "x y", "b": [1, 2]} in form-body mode yields exactly
    a=x+y&b=1&b=2.  In general a form body is the pairs of all items in
    iteration order joined by [&]; each falsy value (None, False, 0, the
    empty string, an empty mapping, an empty iterable) contributes
    nothing; a scalar contributes one pair whose value has its
    whitespace-separated words joined by [+], with no whitespace left; an
    iterable contributes one key=element pair per element, in order, so a
    key is repeated rather than merged. *)
Theorem dict_to_query_form_body :
  _dict_to_query
    (DDict [("a", VAtom (AStr "x y")); ("b", VList [AInt 1; AInt 2])])
    false false
  = Ret "a=x+y&b=1&b=2"
  /\ (forall items,
        _dict_to_query (DDict items) false false
        = Ret (PyStr.join "&" (flat_map (query_step []) items)))
  /\ (forall q k,
        query_step q (k, VAtom ANone) = q
        /\ query_step q (k, VAtom (ABool false)) = q
        /\ query_step q (k, VAtom (AInt 0)) = q
        /\ query_step q (k, VAtom (AStr "")) = q
        /\ query_step q (k, VDict []) = q
        /\ query_step q (k, VList []) = q)
  /\ (forall k a,
        atom_truthy a = true ->
        query_step [] (k, VAtom a) = [_queryify (k ++ "=" ++ plus_joined a)]
        /\ no_space (plus_joined a) = true)
  /\ (forall k l,
        query_step [] (k, VList l)
        = map (fun elm => _queryify (k ++ "=" ++ plus_joined elm)) l).
Proof.
  split; [| split; [| split; [| split]]].
  - vm_compute. reflexivity.
  - intros items. unfold _dict_to_query. simpl.
    now rewrite query_pairs_flat.
  - intros q k. repeat split; reflexivity.
  - intros k a Ha. split; [| apply plus_joined_no_space].
    unfold query_step. simpl. rewrite Ha. simpl.
    destruct a; simpl in *; [discriminate | reflexivity ..].
  - intros k l. now rewrite query_step_list.
Qed.

(** The words of "x y" joined by [+], and the pair it becomes. *)
Lemma dict_to_query_form_body_witness :
  atom_truthy (AStr "x y") = true
  /\ query_step [] ("a", VAtom (AStr "x y")) = ["a=x+y"].
Proof.
  split; [reflexivity |].
  destruct dict_to_query_form_body as (_ & _ & _ & H & _).
  destruct (H "a" (AStr "x y") eq_refl) as [Hq _].
  rewrite Hq. vm_compute. reflexivity.
Defined.

(** ** Strings *)

Lemma str_app_assoc (a b c : string) : (a ++ b) ++ c = a ++ b ++ c.
Proof. induction a as [| x a IH]; simpl; [reflexivity | now rewrite IH]. Qed.

Lemma drop_last_separator (a : string) :
  PyStr.drop_last (a ++ "; ") = a ++ ";".
Proof.
  induction a as [| x a IH]; [reflexivity |].
  change (String x a ++ "; ") with (String x (a ++ "; ")).
  change (String x a ++ ";") with (String x (a ++ ";")).
  rewrite <- IH. simpl. destruct (a ++ "; ") eqn:Hd; [| reflexivity].
  destruct a; discriminate Hd.
Qed.

Lemma cookie_loop_snoc cookies k v :
  cookie_loop (cookies ++ [(k, v)])
  = cookie_loop cookies ++ k ++ "=" ++ v ++ "; ".
Proof. unfold cookie_loop. rewrite fold_left_app. reflexivity. Qed.

(** ** The Cookie header *)

(** C9. A mapping of a to 1 and b to 2 is sent as the single Cookie header
    'a=1; b=2;' and not as 'a=1; b=2': [cookie_str[:-1]] removes the last
    character of the two-character separator only, so whatever the
    cookies, the header ends with the semicolon of its last pair. *)
Theorem cookie_header_trailing_semicolon :
  cookie_header [("a", "1"); ("b", "2")] = "a=1; b=2;"
  /\ cookie_header [("a", "1"); ("b", "2")] <> "a=1; b=2"
  /\ (forall cookies k v,
        cookie_header (cookies ++ [(k, v)])
        = cookie_loop cookies ++ k ++ "=" ++ v ++ ";")
  /\ (forall E,
        exists req s,
          assemble E false
            (set_cookies [("a", "1"); ("b", "2")]
               (Demo.request "http://a.com/"))
          = (Ret req, s)
          /\ filter (fun kv => String.eqb (fst kv) "cookie") (rq_headers req)
             = [("cookie", HStr "a=1; b=2;")]).
Proof.
  split; [reflexivity |].
  split; [discriminate |].
  split.
  - intros cookies k v. unfold cookie_header.
    rewrite cookie_loop_snoc.
    rewrite <- !str_app_assoc. rewrite drop_last_separator.
    reflexivity.
  - intros E. eexists. eexists. split; vm_compute; reflexivity.
Qed.

(** ** The multipart encoder *)

(** C7. A part whose value is a readable file path carries the part name
    and the file's basename in its Content-Disposition, but its
    Content-Type is application/octet-stream whenever the guessed
    *encoding* is None, whatever type was guessed from the file name:
    [_multipart] tests [mime_type[1]] where the type is [mime_type[0]]. *)
Theorem multipart_file_part_content_type :
  forall E k v contents ty,
    read_file E v = Some contents ->
    guess_type E (PyStr.basename v) = (ty, None) ->
    _multipart E [(k, VAtom (AStr v))]
    = Ret ("--" ++ _BOUNDARY E ++ crlf
           ++ "Content-Disposition: form-data; name=" ++ dquote ++ k ++ dquote
           ++ "; filename=" ++ dquote ++ PyStr.basename v ++ dquote
           ++ "; Content-Type: " ++ "application/octet-stream"
           ++ crlf ++ crlf ++ contents ++ crlf
           ++ "--" ++ _BOUNDARY E ++ "--" ++ crlf).
Proof.
  intros E k v contents ty Hfile Hguess.
  unfold _multipart, multipart_loop, multipart_part.
  rewrite Hfile, Hguess. cbn [snd opt_str_truthy negb List.length Nat.eqb].
  unfold hder_format, hder_format_io.
  f_equal. change ("" ++ "--" ++ _BOUNDARY E ++ crlf)
    with ("--" ++ _BOUNDARY E ++ crlf).
  rewrite !str_app_assoc. reflexivity.
Qed.

(** /tmp/a.txt exists and is guessed as text/plain, yet goes out as
    application/octet-stream. *)
Lemma multipart_file_part_content_type_witness :
  guess_type (Demo.env (Demo.always [])) "a.txt" = (Some "text/plain", None)
  /\ _multipart (Demo.env (Demo.always [])) [("f", VAtom (AStr "/tmp/a.txt"))]
     = Ret ("--8banana133744910kmmr13ay5fa561234" ++ crlf
            ++ "Content-Disposition: form-data; name=" ++ dquote ++ "f"
            ++ dquote ++ "; filename=" ++ dquote ++ "a.txt" ++ dquote
            ++ "; Content-Type: application/octet-stream" ++ crlf ++ crlf
            ++ "hello" ++ crlf
            ++ "--8banana133744910kmmr13ay5fa561234--" ++ crlf).
Proof.
  split; [reflexivity |].
  rewrite (multipart_file_part_content_type
             (Demo.env (Demo.always [])) "f" "/tmp/a.txt" "hello"
             (Some "text/plain") eq_refl eq_refl).
  reflexivity.
Defined.

(** ** The response consumer *)

Lemma catch_response_head st r rest :
  wire (world st) = EvResponse r :: rest ->
  _recv_event st
  = (Ret (EvResponse r), MkSt (self st) (set_wire rest (world st))).
Proof. unfold _recv_event. intros ->. reflexivity. Qed.

(** C5. With streaming requested (and no callback), a response whose body
    is expected and whose status lies outside [200, 300) is neither
    streamed nor buffered: the consumer returns a Response with an empty
    body, leaves the streaming flag as it was, and leaves every body event
    unread on the socket. *)
Theorem stream_non_2xx_body_not_buffered :
  forall st r rest b,
    wire (world st) = EvResponse r :: rest ->
    callback (self st) = false ->
    stream (self st) = Some b ->
    body_expected (response_headers r) = Ret true ->
    (ev_status_code r <= 199 \/ 300 <= ev_status_code r) ->
    exists resp,
      _catch_response st
      = (Ret resp, MkSt (self st) (set_wire rest (world st)))
      /\ status_code resp = ev_status_code r
      /\ body resp = BBytes "".
Proof.
  intros st r rest b Hw Hcb Hs Hbody Hst.
  eexists. split; [| split].
  - unfold _catch_response.
    rewrite (bind_ret _ _ _ _ _ (catch_response_head st r rest Hw)).
    unfold bind, get_self, lift_res. cbn [self world].
    rewrite Hbody, Hcb, Hs.
    replace ((199 <? ev_status_code r) && (ev_status_code r <? 300))
      with false by (symmetry; apply andb_false_iff; lia).
    unfold ret. reflexivity.
  - reflexivity.
  - reflexivity.
Qed.

(** A streamed request answered 404 with the five bytes "oops!": the body
    stays on the wire, where without streaming it is buffered. *)
Lemma stream_non_2xx_body_not_buffered_witness :
  let st :=
    MkSt (Demo.configured "http://a.com/" None false (Some true) 20)
         (set_wire Demo.not_found Demo.world0) in
  (exists resp,
     _catch_response st
     = (Ret resp,
        MkSt (self st) (set_wire [EvData "oops!"; EvEndOfMessage] (world st)))
     /\ status_code resp = 404
     /\ body resp = BBytes "")
  /\ (exists resp st',
        _catch_response
          (MkSt (Demo.request "http://a.com/")
                (set_wire Demo.not_found Demo.world0))
        = (Ret resp, st')
        /\ body resp = BBytes "oops!" /\ wire (world st') = []).
Proof.
  split.
  - apply (stream_non_2xx_body_not_buffered
             (MkSt (Demo.configured "http://a.com/" None false (Some true) 20)
                   (set_wire Demo.not_found Demo.world0))
             (H11Response 404 "Not Found" "1.1" [("content-length", "5")])
             [EvData "oops!"; EvEndOfMessage] true);
      [reflexivity | reflexivity | reflexivity | reflexivity
      | right; simpl; lia].
  - eexists. eexists. split; [vm_compute; reflexivity | split; reflexivity].
Defined.

(** C6. A response that carries neither a Content-Length nor a
    Transfer-Encoding header is not consumed: the lookup of
    [transfer-encoding] inside the [except KeyError] handler raises
    KeyError, no end-of-message event is read and no Response is
    returned. *)
Theorem catch_response_without_length_headers :
  forall st r rest,
    wire (world st) = EvResponse r :: rest ->
    Dict.get "content-length" (response_headers r) = None ->
    Dict.get "transfer-encoding" (response_headers r) = None ->
    _catch_response st
    = (Raise (KeyError "transfer-encoding"),
       MkSt (self st) (set_wire rest (world st))).
Proof.
  intros st r rest Hw Hcl Hte.
  unfold _catch_response.
  rewrite (bind_ret _ _ _ _ _ (catch_response_head st r rest Hw)).
  unfold bind, get_self, lift_res, body_expected, CIDict.get.
  change (PyStr.lower "content-length") with "content-length".
  change (PyStr.lower "transfer-encoding") with "transfer-encoding".
  rewrite Hcl, Hte. reflexivity.
Qed.

(** A 200 response with no headers at all, followed by its end of
    message. *)
Lemma catch_response_without_length_headers_witness :
  _catch_response
    (MkSt (Demo.request "http://a.com/") (set_wire Demo.bare_ok Demo.world0))
  = (Raise (KeyError "transfer-encoding"),
     MkSt (Demo.request "http://a.com/")
          (set_wire [EvEndOfMessage] Demo.world0)).
Proof.
  apply (catch_response_without_length_headers
           (MkSt (Demo.request "http://a.com/")
                 (set_wire Demo.bare_ok Demo.world0))
           (H11Response 200 "OK" "1.1" []) [EvEndOfMessage]);
    reflexivity.
Defined.

(** ** Worked exchanges: redirects and the authentication retry *)

(** C1. The initial scheme and authority do not survive a redirect: the
    first attempt of an exchange for http://a.com/x records a.com, the
    server redirects to http://b.com/y, and the re-issue (made by
    [self.make_request()] with the default [redirect=False]) records b.com
    in their place, so that at the end of the exchange the baseline is the
    redirect target itself. *)
Theorem initial_netloc_overwritten_by_redirect :
  forall n,
    let E := Demo.env (Demo.redirect_once "http://b.com/y") in
    let st0 := Demo.start (Demo.request "http://a.com/x") in
    (forall E' fuel redirect,
        make_request E' (S fuel) redirect
        = make_request_body E' (make_request E' fuel false) redirect)
    /\ (forall s,
          initial_scheme (parse_uri false s)
          = Some (Url.scheme (Url.urlparse (uri s)))
          /\ initial_netloc (parse_uri false s)
             = Some (Url.netloc (Url.urlparse (uri s))))
    /\ initial_scheme (snd (assemble E false (self st0))) = Some "http"
    /\ initial_netloc (snd (assemble E false (self st0))) = Some "a.com"
    /\ exists r st',
        make_request E (2 + n) false st0 = (Ret r, st')
        /\ status_code (snd r) = 200
        /\ map status_code (history_objects (self st')) = [302]
        /\ initial_scheme (self st') = Some "http"
        /\ initial_netloc (self st') = Some "b.com".
Proof.
  intros n. cbv zeta.
  split; [reflexivity |].
  split; [intros s; split; reflexivity |].
  split; [reflexivity | split; [reflexivity |]].
  eexists. eexists. split; [vm_compute; reflexivity |].
  repeat split; reflexivity.
Qed.

(** C2. An absolute redirect from www.a.com to www.b.com, with a
    pre-response authentication strategy set and [auth_off_domain] unset,
    is followed: [_redirect] calls the coroutine function
    [_location_auth_protect] without awaiting it, the coroutine object it
    gets is true, and the request is re-issued to www.b.com with the
    Authorization header, although the check itself, had it run, would
    have answered None.  The value returned is the 200 of the second
    request, not the 302. *)
Theorem cross_domain_redirect_with_auth_is_followed :
  forall n,
    let E := Demo.env (Demo.redirect_once "http://www.b.com/y") in
    let s0 :=
      Demo.configured "http://www.a.com/x"
        (Some (MkAuth PreResponseAuth false)) false None 20 in
    (forall pending, allow_truthy (AllowCoroutine pending) = true)
    /\ _location_auth_protect (snd (assemble E false s0))
         "http://www.b.com/y"
       = Ret None
    /\ exists r st',
        make_request E (2 + n) false (Demo.start s0) = (Ret r, st')
        /\ status_code (snd r) = 200
        /\ map (fun q => (Dict.get "host" (rq_headers q),
                          Dict.get "authorization" (rq_headers q)))
               (sent (world st'))
           = [(Some (HStr "www.a.com"), Some (HStr "Basic dXNlcjpwdw=="));
              (Some (HStr "www.b.com"), Some (HStr "Basic dXNlcjpwdw=="))].
Proof.
  intros n. cbv zeta. split; [reflexivity |].
  split; [vm_compute; reflexivity |].
  eexists. eexists. split; [vm_compute; reflexivity |].
  split; reflexivity.
Qed.

(** C3. With a post-response strategy and a server that answers 401 to
    the request and to its retry, exactly one retry is made (two requests
    are sent, the first 401 is the only entry of the history), but no
    Response reaches the caller: [_auth_handler_post_check_retry] returns
    the pair [(sock, response)] that [make_request] gave it, and
    [_request_io] raises AttributeError when it reads [status_code] off
    that pair (or, for a HEAD request, when it assigns [history]). *)
Theorem post_auth_second_401_raises :
  forall n,
    let E := Demo.env (Demo.always Demo.unauthorized) in
    let s0 :=
      Demo.configured "http://a.com/x"
        (Some (MkAuth PostResponseAuth false)) false None 20 in
    (exists st',
        make_request E (2 + n) false (Demo.start s0)
        = (Raise (AttributeError "status_code"), st')
        /\ List.length (sent (world st')) = 2%nat
        /\ map status_code (history_objects (self st')) = [401])
    /\ (exists st',
           make_request E (2 + n) false (Demo.start (set_method "HEAD" s0))
           = (Raise (AttributeError "history"), st')
           /\ List.length (sent (world st')) = 2%nat
           /\ map status_code (history_objects (self st')) = [401]).
Proof.
  intros n. cbv zeta. split.
  - eexists. split; [vm_compute; reflexivity |]. split; reflexivity.
  - eexists. split; [vm_compute; reflexivity |]. split; reflexivity.
Qed.

(** ** What [make_request] hands back *)

(** C10. Whenever [make_request] returns, it returns a pair whose first
    component is None if the streaming flag is set at that point (the
    socket is withheld from the pool), and the request's current socket
    otherwise. *)
Theorem make_request_returns_sock_unless_streaming :
  forall E fuel redirect st conn resp st',
    make_request E fuel redirect st = (Ret (conn, resp), st') ->
    conn = if streaming (self st') then None else Some (sock (self st')).
Proof.
  intros E fuel redirect st conn resp st' H.
  destruct fuel as [| fuel]; [discriminate H |].
  simpl in H. unfold make_request_body in H.
  apply bind_ret_inv in H. destruct H as (request & st1 & _ & H).
  apply bind_ret_inv in H. destruct H as (response_obj & st2 & _ & H).
  apply bind_ret_inv in H. destruct H as (s & st3 & _ & H).
  apply bind_ret_inv in H. destruct H as (u & st4 & _ & H).
  apply bind_ret_inv in H. destruct H as (s' & st5 & Hget & H).
  unfold get_self in Hget. inversion Hget; subst s' st5. clear Hget.
  unfold ret in H.
  destruct (streaming (self st4)) eqn:Hs; inversion H; subst;
    rewrite Hs; reflexivity.
Qed.

(** Two completed exchanges: a buffered 200, returned with the socket, and
    a streamed 200, returned without it. *)
Lemma make_request_returns_sock_unless_streaming_witness :
  (exists resp st',
      make_request (Demo.env (Demo.always Demo.ok_hi)) 1 false
        (Demo.start (Demo.request "http://a.com/x"))
      = (Ret (Some (sock (self st')), resp), st')
      /\ streaming (self st') = false)
  /\ (exists resp st',
         make_request (Demo.env (Demo.always Demo.ok_hi)) 1 false
           (Demo.start
              (Demo.configured "http://a.com/x" None false (Some true) 20))
         = (Ret (None, resp), st')
         /\ streaming (self st') = true).
Proof.
  split.
  - destruct (make_request (Demo.env (Demo.always Demo.ok_hi)) 1 false
                (Demo.start (Demo.request "http://a.com/x")))
      as [[[conn resp] | e | ] st'] eqn:Hrun.
    + exists resp, st'.
      assert (Hs : streaming (self st') = false)
        by (vm_compute in Hrun; inversion Hrun; reflexivity).
      pose proof (make_request_returns_sock_unless_streaming
                    _ _ _ _ _ _ _ Hrun) as Hconn.
      rewrite Hs in Hconn. subst conn. split; reflexivity || exact Hs.
    + vm_compute in Hrun. discriminate Hrun.
    + vm_compute in Hrun. discriminate Hrun.
  - destruct (make_request (Demo.env (Demo.always Demo.ok_hi)) 1 false
                (Demo.start
                   (Demo.configured "http://a.com/x" None false
                      (Some true) 20)))
      as [[[conn resp] | e | ] st'] eqn:Hrun.
    + exists resp, st'.
      assert (Hs : streaming (self st') = true)
        by (vm_compute in Hrun; inversion Hrun; reflexivity).
      pose proof (make_request_returns_sock_unless_streaming
                    _ _ _ _ _ _ _ Hrun) as Hconn.
      rewrite Hs in Hconn. subst conn. split; reflexivity || exact Hs.
    + vm_compute in Hrun. discriminate Hrun.
    + vm_compute in Hrun. discriminate Hrun.
Defined.

(** ** The redirect budget *)

(** Case analysis on the innermost scrutinee of the goal. *)
Ltac break_match :=
  match goal with
  | |- context [match ?x with _ => _ end] =>
      lazymatch x with
      | context [match _ with _ => _ end] => fail
      | _ => destruct x eqn:?
      end
  end; cbv beta iota.

Lemma ctl_build_path s : ctl (_build_path s) = ctl s.
Proof. unfold _build_path. repeat break_match; reflexivity. Qed.

Lemma ctl_post_get_auth E s :
  ctl (snd (_auth_handler_post_get_auth E s)) = ctl s.
Proof.
  unfold _auth_handler_post_get_auth.
  destruct (auth s) as [a |]; [| reflexivity].
  destruct (kind a); try reflexivity.
  destruct (last_opt (history_objects s)); [| reflexivity].
  destruct (_ && _); reflexivity.
Qed.

Lemma formulate_body_ctl E s s' :
  ctl s' = ctl s -> _formulate_body E s' = _formulate_body E s.
Proof.
  unfold ctl. intros H. injection H as _ _ _ _ Hf Hd Hj.
  unfold _formulate_body. rewrite Hf, Hd, Hj. reflexivity.
Qed.

Lemma ctl_parse_uri redirect s : ctl (parse_uri redirect s) = ctl s.
Proof. unfold parse_uri. destruct redirect; reflexivity. Qed.

Lemma ctl_inject_cookies E s : ctl (inject_cookies E s) = ctl s.
Proof. unfold inject_cookies. destruct (persist_cookies s); reflexivity. Qed.

Lemma ctl_with_auth E s hs : ctl (snd (with_auth E s hs)) = ctl s.
Proof.
  unfold with_auth. destruct (auth s); [| reflexivity].
  pose proof (ctl_post_get_auth E s) as H.
  destruct (_auth_handler_post_get_auth E s) as [post s']. exact H.
Qed.

(** The assembly succeeds whenever the body can be formulated, and leaves
    the control attributes alone. *)
Lemma assemble_spec E redirect s b :
  _formulate_body E s = Ret b ->
  exists req s1,
    assemble E redirect s = (Ret req, s1) /\ ctl s1 = ctl s.
Proof.
  intros Hb. unfold assemble.
  set (s1 := _build_path (inject_cookies E (parse_uri redirect s))).
  assert (H1 : ctl s1 = ctl s).
  { unfold s1.
    now rewrite ctl_build_path, ctl_inject_cookies, ctl_parse_uri. }
  assert (Hw : exists hb,
             with_body E s1 (default_headers (parse_uri redirect s)) = Ret hb).
  { unfold with_body. destruct (_ || _); [| eexists; reflexivity].
    rewrite (formulate_body_ctl E s s1 H1), Hb.
    destruct b as [[ct cl] body]. eexists; reflexivity. }
  destruct Hw as [[hs body] Hw]. cbv zeta. fold s1. rewrite Hw.
  pose proof (ctl_with_auth E s1 (with_user_headers s1 hs)) as H2.
  destruct (with_auth E s1 (with_user_headers s1 hs)) as [hs' s2].
  eexists. eexists. split; [reflexivity |].
  simpl in H2. now rewrite H2.
Qed.




(** *** Header mappings *)

Lemma dict_get_set {V} (k k' : string) (v : V) d :
  Dict.get k' (Dict.set k v d)
  = if String.eqb k' k then Some v else Dict.get k' d.
Proof.
  induction d as [| [k0 v0] d IH]; simpl.
  - reflexivity.
  - destruct (String.eqb k k0) eqn:Hk; simpl.
    + apply String.eqb_eq in Hk. subst k0.
      destruct (String.eqb k' k); reflexivity.
    + rewrite IH. destruct (String.eqb k' k0) eqn:Hk0; [| reflexivity].
      apply String.eqb_eq in Hk0. subst k0.
      rewrite String.eqb_sym, Hk. reflexivity.
Qed.






(** *** Steps that leave the control attributes, the log of requests and an
    empty wire as they are *)










Lemma ctl_inv s s' :
  ctl s' = ctl s ->
  method s' = method s /\ max_redirects s' = max_redirects s
  /\ callback s' = callback s /\ stream s' = stream s
  /\ (files s', data s', json s') = (files s, data s, json s).
Proof.
  unfold ctl. intros H. injection H as Hm Hr Hc Hs Hf Hd Hj.
  repeat split; congruence.
Qed.









(** C4. A server that answers every attempt of a GET with a 302 carrying
    a Location, but neither Content-Length nor Transfer-Encoding, does not
    bring the exchange to the too-many-redirects error on attempt N + 2:
    whatever the budget N, the first reply is not followed, the exchange
    ends with KeyError for the transfer-encoding header, and one request
    has been sent. *)
Theorem redirects_without_length_header_end_in_keyerror :
  forall (N : Z) (fuel : nat),
    exists st',
      make_request (Demo.env (Demo.always (Demo.bare_redirect_to "/next")))
        (S fuel) false
        (Demo.start (Demo.configured "http://a.com/x" None false None N))
      = (Raise (KeyError "transfer-encoding"), st')
      /\ List.length (sent (world st')) = 1%nat
      /\ history_objects (self st') = []
      /\ max_redirects (self st') = N.
Proof.
  intros N fuel. eexists. split; [vm_compute; reflexivity |].
  repeat split; reflexivity.
Qed.



(** * Further properties of the code *)

(** ** Query / form codec *)

Lemma query_pairs_all_falsy items :
  forallb (fun kv => negb (truthy (snd kv))) items = true ->
  query_pairs items = [].
Proof.
  rewrite query_pairs_flat.
  induction items as [| [k v] items IH]; simpl; intros H; [reflexivity |].
  apply andb_prop in H. destruct H as [Hv Hrest].
  rewrite (IH Hrest), app_nil_r.
  unfold query_step. now rewrite Hv.
Qed.

(** X1. A mapping all of whose values are falsy encodes to the empty
    string in every mode: no '?' or '&' is emitted without a pair to
    follow it. *)
Theorem dict_to_query_all_falsy :
  forall items params base_query,
    forallb (fun kv => negb (truthy (snd kv))) items = true ->
    _dict_to_query (DDict items) params base_query = Ret "".
Proof.
  intros items params base_query H. unfold _dict_to_query.
  rewrite (query_pairs_all_falsy items H).
  destruct params; reflexivity.
Qed.

Lemma dict_to_query_all_falsy_witness :
  _dict_to_query
    (DDict [("a", VAtom ANone); ("b", VList []); ("c", VAtom (AInt 0))])
    true false
  = Ret "".
Proof.
  apply (dict_to_query_all_falsy
           [("a", VAtom ANone); ("b", VList []); ("c", VAtom (AInt 0))]
           true false).
  reflexivity.
Defined.

Lemma url_safe_append a b : url_safe (a ++ b) = url_safe a && url_safe b.
Proof.
  unfold url_safe. induction a as [| c a IH]; simpl.
  - reflexivity.
  - rewrite IH, andb_assoc. reflexivity.
Qed.

Lemma hex_digit_safe k : (k < 16)%nat -> url_safe_char (Url.hex_digit k) = true.
Proof.
  intros H.
  do 16 (destruct k as [| k]; [reflexivity |]). lia.
Qed.

Lemma percent_safe c : url_safe (Url.percent c) = true.
Proof.
  unfold Url.percent, url_safe. cbn [list_ascii_of_string forallb].
  pose proof (nat_ascii_bounded c) as Hc.
  rewrite !hex_digit_safe.
  - reflexivity.
  - apply Nat.mod_upper_bound. discriminate.
  - apply Nat.Div0.div_lt_upper_bound. exact Hc.
Qed.

Lemma queryify_safe s : url_safe (_queryify s) = true.
Proof.
  unfold _queryify. induction s as [| c s IH]; [reflexivity |].
  cbn [Url.quote]. rewrite url_safe_append, IH, andb_true_r.
  destruct (Url.always_safe c || Url.mem_char c "/=+?&") eqn:Hc.
  - unfold url_safe, url_safe_char. cbn [list_ascii_of_string forallb].
    rewrite Hc. reflexivity.
  - apply percent_safe.
Qed.

Lemma join_amp_safe l :
  forallb url_safe l = true -> url_safe (PyStr.join "&" l) = true.
Proof.
  induction l as [| p l IH]; intros H; [reflexivity |].
  apply andb_prop in H. destruct H as [Hp Hl].
  destruct l as [| p' l'].
  - exact Hp.
  - change (PyStr.join "&" (p :: p' :: l'))
      with (p ++ "&" ++ PyStr.join "&" (p' :: l')).
    rewrite !url_safe_append, Hp, (IH Hl). reflexivity.
Qed.

Lemma forallb_map_queryify {A} (f : A -> string) (l : list A) :
  forallb url_safe (map (fun x => _queryify (f x)) l) = true.
Proof.
  induction l as [| x l IH]; simpl; [reflexivity |].
  now rewrite queryify_safe, IH.
Qed.

Lemma query_step_safe kv : forallb url_safe (query_step [] kv) = true.
Proof.
  destruct kv as [k v]. destruct v as [a | d | l].
  - unfold query_step. destruct (negb (truthy (VAtom a))); [reflexivity |].
    destruct (is_str_or_number a); [| reflexivity].
    simpl. now rewrite queryify_safe.
  - rewrite query_step_dict. simpl.
    apply (forallb_map_queryify (fun key => k ++ "=" ++ key)).
  - rewrite query_step_list. simpl.
    apply (forallb_map_queryify (fun elm => k ++ "=" ++ plus_joined elm)).
Qed.

Lemma query_pairs_safe items : forallb url_safe (query_pairs items) = true.
Proof.
  rewrite query_pairs_flat.
  induction items as [| kv items IH]; simpl; [reflexivity |].
  rewrite forallb_app, query_step_safe, IH. reflexivity.
Qed.

(** X2. Whatever the keys and values of a mapping, [_dict_to_query]
    returns a string made of URL-safe characters only: letters, digits,
    [_.-~], the separators [/=+?&] and the percent sign of an escape.  In
    particular no whitespace and no control character reaches the request
    line or a form body. *)
Theorem dict_to_query_url_safe :
  forall items params base_query,
    exists q,
      _dict_to_query (DDict items) params base_query = Ret q
      /\ url_safe q = true.
Proof.
  intros items params base_query. unfold _dict_to_query.
  pose proof (join_amp_safe _ (query_pairs_safe items)) as Hj.
  destruct (params && negb (is_nil (query_pairs items))).
  - destruct (negb base_query); eexists; (split; [reflexivity |]);
      rewrite url_safe_append, Hj; reflexivity.
  - eexists. split; [reflexivity | exact Hj].
Qed.

(** ** The request target *)

Lemma str_app_nil_r (a : string) : a ++ "" = a.
Proof. induction a as [| x a IH]; simpl; [reflexivity | now rewrite IH]. Qed.

Lemma truthy_append a b :
  PyStr.truthy a = true -> PyStr.truthy (a ++ b) = true.
Proof. destruct a; [discriminate | reflexivity]. Qed.

(** X3. [_build_path] never leaves an empty request target: an empty
    parsed path becomes "/", and a query or parameters are only ever
    appended to it. *)
Theorem build_path_target_not_empty :
  forall s, PyStr.truthy (path (_build_path s)) = true.
Proof.
  intros s. unfold _build_path.
  set (s1 := if negb (PyStr.truthy (path s)) then set_path "/" s else s).
  assert (H1 : PyStr.truthy (path s1) = true).
  { unfold s1. destruct (PyStr.truthy (path s)) eqn:Hp; [exact Hp |].
    reflexivity. }
  set (s2 := if PyStr.truthy (query s1)
             then set_path (path s1 ++ "?" ++ query s1) s1 else s1).
  assert (H2 : PyStr.truthy (path s2) = true).
  { unfold s2. destruct (PyStr.truthy (query s1)); [| exact H1].
    apply truthy_append, H1. }
  destruct (params s2) as [p |]; [| exact H2].
  destruct (data_truthy p); [| exact H2].
  destruct (if PyStr.truthy (query s2)
            then _dict_to_query p true true
            else _dict_to_query p true false) as [q | e |];
    [apply truthy_append, H2 | |];
    (destruct p; [exact H2 | apply truthy_append, H2]).
Qed.

Lemma query_set_path x s : query (set_path x s) = query s.
Proof. reflexivity. Qed.

Lemma params_set_path x s : params (set_path x s) = params s.
Proof. reflexivity. Qed.

Lemma path_set_path x s : path (set_path x s) = x.
Proof. reflexivity. Qed.

(** Symbolic evaluation of [_build_path] once the truth values of the
    parsed path and query are known. *)
Ltac build_path_steps Hq Hp :=
  repeat (progress
            (rewrite ?query_set_path, ?params_set_path, ?path_set_path,
               ?Hq, ?Hp;
             cbn [negb andb is_nil data_truthy _dict_to_query PyStr.join])).

(** X4. With a mapping as [params], the target is the parsed path ("/" if
    empty), then "?" and the parsed query if there is one, then the
    encoded parameters, introduced by "&" after a query and by "?"
    otherwise; a mapping that yields no pair adds nothing. *)
Theorem build_path_with_mapping :
  forall s items,
    params s = Some (DDict items) ->
    path (_build_path s)
    = (if PyStr.truthy (path s) then path s else "/")
      ++ (if PyStr.truthy (query s) then "?" ++ query s else "")
      ++ (if is_nil (query_pairs items) then ""
          else (if PyStr.truthy (query s) then "&" else "?")
               ++ PyStr.join "&" (query_pairs items)).
Proof.
  intros s items Hp. unfold _build_path.
  destruct (PyStr.truthy (path s)) eqn:Hpath;
    destruct (PyStr.truthy (query s)) eqn:Hq;
    build_path_steps Hq Hp;
    (destruct items as [| kv items];
     [build_path_steps Hq Hp; rewrite ?str_app_nil_r; reflexivity |]);
    build_path_steps Hq Hp;
    destruct (query_pairs (kv :: items)) as [| pr prs];
    build_path_steps Hq Hp;
    rewrite ?str_app_nil_r, ?str_app_assoc; reflexivity.
Qed.

Lemma build_path_with_mapping_witness :
  path (_build_path
          (Samples.parsed "/search" "page=2"
             (Some (DDict [("q", VAtom (AStr "a b")); ("n", VAtom ANone)]))))
  = "/search?page=2&q=a+b"
  /\ path (_build_path
             (Samples.parsed "" ""
                (Some (DDict [("q", VAtom (AStr "a b"))]))))
     = "/?q=a+b".
Proof.
  split.
  - rewrite (build_path_with_mapping
               (Samples.parsed "/search" "page=2"
                  (Some (DDict [("q", VAtom (AStr "a b"));
                                ("n", VAtom ANone)])))
               [("q", VAtom (AStr "a b")); ("n", VAtom ANone)] eq_refl).
    vm_compute. reflexivity.
  - rewrite (build_path_with_mapping
               (Samples.parsed "" "" (Some (DDict [("q", VAtom (AStr "a b"))])))
               [("q", VAtom (AStr "a b"))] eq_refl).
    vm_compute. reflexivity.
Defined.

(** X5. With a non-empty string as [params] ([_dict_to_query] raises
    AttributeError, which [_build_path] handles), the string is
    percent-encoded and appended after a "?", also when the URI already
    had a query: the target then holds two question marks. *)
Theorem build_path_with_string :
  forall s p,
    params s = Some (DStr p) ->
    PyStr.truthy p = true ->
    path (_build_path s)
    = (if PyStr.truthy (path s) then path s else "/")
      ++ (if PyStr.truthy (query s) then "?" ++ query s else "")
      ++ "?" ++ _queryify p.
Proof.
  intros s p Hp Ht. unfold _build_path.
  destruct (PyStr.truthy (path s)) eqn:Hpath;
    destruct (PyStr.truthy (query s)) eqn:Hq;
    build_path_steps Hq Hp; rewrite Ht; build_path_steps Hq Hp;
    rewrite ?str_app_assoc; reflexivity.
Qed.

Lemma build_path_with_string_witness :
  path (_build_path (Samples.parsed "/search" "page=2" (Some (DStr "q=a b"))))
  = "/search?page=2?q=a%20b".
Proof.
  rewrite (build_path_with_string
             (Samples.parsed "/search" "page=2" (Some (DStr "q=a b")))
             "q=a b" eq_refl eq_refl).
  vm_compute. reflexivity.
Defined.

(** ** Multipart bodies *)

Lemma starts_with_append p t : PyStr.starts_with p (p ++ t) = true.
Proof.
  induction p as [| c p IH]; simpl; [reflexivity |].
  now rewrite Ascii.eqb_refl, IH.
Qed.

Lemma ret_inj {A} (x y : A) : Ret x = Ret y -> x = y.
Proof. intros H. injection H as H. exact H. Qed.

Lemma multipart_part_extends E pkg k v pkg' :
  multipart_part E pkg k v = Ret pkg' ->
  exists t, pkg' = pkg ++ "--" ++ _BOUNDARY E ++ crlf ++ t.
Proof.
  unfold multipart_part, literal_part.
  destruct v as [[| | | p] | |]; try discriminate.
  destruct (read_file E p) as [contents |].
  - destruct (negb (opt_str_truthy (snd (guess_type E (PyStr.basename p))))).
    + intros H. apply ret_inj in H; subst. rewrite !str_app_assoc.
      eexists. reflexivity.
    + destruct (guess_type E (PyStr.basename p)) as [[ty |] [enc |]];
        intros H; apply ret_inj in H; subst; rewrite !str_app_assoc;
        eexists; reflexivity.
  - destruct (is_TypeError_or_FileNotFoundError (open_error E p));
      [| discriminate].
    intros H. apply ret_inj in H; subst. rewrite !str_app_assoc.
    eexists. reflexivity.
Qed.

Lemma multipart_loop_extends E items : forall pkg i n r,
  multipart_loop E pkg i n items = Ret r -> exists t, r = pkg ++ t.
Proof.
  induction items as [| [k v] items IH]; intros pkg i n r H.
  - apply ret_inj in H; subst. exists "". now rewrite str_app_nil_r.
  - cbn [multipart_loop] in H.
    destruct (multipart_part E pkg k v) as [pkg' | e |] eqn:Hpart;
      try discriminate H.
    destruct (multipart_part_extends E pkg k v pkg' Hpart) as [t1 ->].
    apply IH in H. destruct H as [t2 ->].
    destruct (Nat.eqb i n); rewrite !str_app_assoc; eexists; reflexivity.
Qed.

Lemma multipart_loop_closes E items : forall pkg i n r,
  items <> [] ->
  (i + List.length items = S n)%nat ->
  multipart_loop E pkg i n items = Ret r ->
  ends_with ("--" ++ _BOUNDARY E ++ "--" ++ crlf) r.
Proof.
  induction items as [| [k v] items IH]; intros pkg i n r Hne Hlen H;
    [congruence |].
  cbn [multipart_loop] in H.
  destruct (multipart_part E pkg k v) as [pkg' | e |] eqn:Hpart;
    try discriminate H.
  destruct items as [| kv items].
  - simpl in Hlen. assert (Hi : Nat.eqb i n = true)
      by (apply Nat.eqb_eq; lia).
    rewrite Hi in H. cbn [multipart_loop] in H. apply ret_inj in H; subst.
    exists pkg'. reflexivity.
  - eapply (IH _ (S i) n r); [discriminate | simpl in *; lia | exact H].
Qed.

(** X6. The body [_multipart] builds for a non-empty mapping opens with
    the boundary line and closes with the terminating boundary line. *)
Theorem multipart_body_framed :
  forall E files_dict body,
    files_dict <> [] ->
    _multipart E files_dict = Ret body ->
    PyStr.starts_with ("--" ++ _BOUNDARY E ++ crlf) body = true
    /\ ends_with ("--" ++ _BOUNDARY E ++ "--" ++ crlf) body.
Proof.
  intros E files_dict body Hne H. unfold _multipart in H. split.
  - destruct files_dict as [| [k v] items]; [congruence |].
    cbn [multipart_loop] in H.
    destruct (multipart_part E "" k v) as [pkg' | e |] eqn:Hpart;
      try discriminate H.
    destruct (multipart_part_extends E "" k v pkg' Hpart) as [t1 ->].
    apply multipart_loop_extends in H. destruct H as [t2 ->].
    change ("" ++ "--" ++ _BOUNDARY E ++ crlf ++ t1)
      with ("--" ++ _BOUNDARY E ++ crlf ++ t1).
    destruct (Nat.eqb 1 (List.length ((k, v) :: items)));
      rewrite <- ?str_app_assoc;
      rewrite !(str_app_assoc ("--" ++ _BOUNDARY E ++ crlf));
      apply starts_with_append.
  - apply (multipart_loop_closes E files_dict "" 1 (List.length files_dict));
      [exact Hne | reflexivity | exact H].
Qed.

Lemma multipart_body_framed_witness :
  exists body,
    _multipart (Demo.env (Demo.always []))
      [("field", VAtom (AStr "value")); ("file", VAtom (AStr "/tmp/a.txt"))]
    = Ret body
    /\ PyStr.starts_with
         ("--" ++ _BOUNDARY (Demo.env (Demo.always [])) ++ crlf) body = true
    /\ ends_with
         ("--" ++ _BOUNDARY (Demo.env (Demo.always [])) ++ "--" ++ crlf) body.
Proof.
  destruct (_multipart (Demo.env (Demo.always []))
              [("field", VAtom (AStr "value"));
               ("file", VAtom (AStr "/tmp/a.txt"))])
    as [body | e |] eqn:Hrun.
  - exists body. split; [reflexivity |].
    apply (multipart_body_framed (Demo.env (Demo.always []))
             [("field", VAtom (AStr "value"));
              ("file", VAtom (AStr "/tmp/a.txt"))] body);
      [discriminate | exact Hrun].
  - vm_compute in Hrun. discriminate Hrun.
  - vm_compute in Hrun. discriminate Hrun.
Defined.





Lemma multipart_part_outcome E pkg k v :
  multipart_part E pkg k v <> OutOfFuel.
Proof.
  unfold multipart_part. repeat break_match; discriminate.
Qed.

Lemma multipart_loop_open_error E items k v :
  In (k, VAtom (AStr v)) items ->
  read_file E v = None ->
  is_TypeError_or_FileNotFoundError (open_error E v) = false ->
  forall pkg i n, exists e, multipart_loop E pkg i n items = Raise e.
Proof.
  intros Hin Hfile Herr.
  induction items as [| [k0 v0] items IH]; intros pkg i n; [destruct Hin |].
  cbn [multipart_loop].
  destruct Hin as [Hhere | Hlater].
  - injection Hhere as -> ->. unfold multipart_part.
    rewrite Hfile, Herr. eexists. reflexivity.
  - destruct (multipart_part E pkg k0 v0) as [pkg' | e |] eqn:Hpart.
    + apply (IH Hlater).
    + exists e. reflexivity.
    + now apply multipart_part_outcome in Hpart.
Qed.

(** X24. An error of [open] other than FileNotFoundError and TypeError is
    not handled: when any value of the mapping names a path that [open]
    refuses with such an error (a directory, a refused permission, a name
    that is too long), [_multipart] returns no body and raises, wherever
    the value stands in the mapping. *)
Theorem multipart_open_error_is_raised :
  forall E files_dict k v,
    In (k, VAtom (AStr v)) files_dict ->
    read_file E v = None ->
    is_TypeError_or_FileNotFoundError (open_error E v) = false ->
    exists e, _multipart E files_dict = Raise e.
Proof.
  intros E files_dict k v Hin Hfile Herr. unfold _multipart.
  apply (multipart_loop_open_error E files_dict k v Hin Hfile Herr).
Qed.

(** A directory between a form field and a file. *)
Lemma multipart_open_error_is_raised_witness :
  exists e,
    _multipart (Demo.env (Demo.always []))
      [("field", VAtom (AStr "value")); ("dir", VAtom (AStr "/tmp"));
       ("file", VAtom (AStr "/tmp/a.txt"))]
    = Raise e.
Proof.
  apply (multipart_open_error_is_raised (Demo.env (Demo.always []))
           [("field", VAtom (AStr "value")); ("dir", VAtom (AStr "/tmp"));
            ("file", VAtom (AStr "/tmp/a.txt"))]
           "dir" "/tmp").
  - right. left. reflexivity.
  - reflexivity.
  - reflexivity.
Defined.

(** ** Reading a response *)









(** Case analysis on the innermost scrutinee of a hypothesis. *)
Ltac break_match_in H :=
  match type of H with
  | context [match ?x with _ => _ end] =>
      lazymatch x with
      | context [match _ with _ => _ end] => fail
      | _ => destruct x eqn:?
      end
  end.

(** X11. The streaming flag is raised by the consumer only for a response
    whose status is in [200, 300), and only when streaming was requested
    and no callback was given; the Response then carries a stream bound
    to the current socket instead of bytes. *)
Theorem catch_response_streams_only_2xx :
  forall st resp st',
    _catch_response st = (Ret resp, st') ->
    streaming (self st) = false ->
    streaming (self st') = true ->
    200 <= status_code resp < 300
    /\ body resp = BStream (sock (self st))
    /\ callback (self st) = false
    /\ stream (self st) <> None.
Proof.
  intros st resp st' H Hoff Hon.
  unfold _catch_response, enter_streaming, _body_callback, buffer_body,
    _recv_event, bind, get_self, lift_res, ret, raise, when, modify_self,
    deactivate_sock in H.
  cbn [self world wire set_wire] in H.
  repeat (break_match_in H; cbn [self world wire set_wire] in H);
    try discriminate H;
    injection H as <- <-; cbn [self streaming] in Hon;
    try (rewrite Hoff in Hon; discriminate Hon);
    cbn [status_code body];
    (split; [| split; [reflexivity | split; [reflexivity | discriminate]]]);
    match goal with
    | Hs : (199 <? _) && (_ <? 300) = true |- _ =>
        apply andb_prop in Hs; destruct Hs as [Hlo Hhi];
        apply Z.ltb_lt in Hlo; apply Z.ltb_lt in Hhi; lia
    end.
Qed.

Lemma catch_response_streams_only_2xx_witness :
  let st :=
    MkSt (parse_uri false
            (Demo.configured "http://a.com/" None false (Some true) 20))
         (set_wire Demo.ok_hi Demo.world0) in
  exists resp st',
    _catch_response st = (Ret resp, st')
    /\ streaming (self st') = true
    /\ 200 <= status_code resp < 300
    /\ body resp = BStream 0.
Proof.
  intros st.
  destruct (_catch_response st) as [[resp | e |] st'] eqn:Hrun.
  - assert (Hon : streaming (self st') = true)
      by (vm_compute in Hrun; injection Hrun as _ Hst; rewrite <- Hst;
          reflexivity).
    destruct (catch_response_streams_only_2xx st resp st' Hrun eq_refl Hon)
      as (Hrange & Hbody & _).
    exists resp, st'. split; [reflexivity |].
    split; [exact Hon | split; [exact Hrange | exact Hbody]].
  - vm_compute in Hrun. discriminate Hrun.
  - vm_compute in Hrun. discriminate Hrun.
Defined.

(** ** The headers of a response *)






(** ** The post-response authentication handler *)

(** X13. [_auth_handler_post_get_auth] never computes credentials twice
    in a row: called again on the request it has just left, it returns no
    header and changes nothing, because the first call has set
    [auth_attempted] before invoking the strategy. *)
Theorem post_get_auth_fires_once :
  forall E s,
    _auth_handler_post_get_auth E (snd (_auth_handler_post_get_auth E s))
    = ([], snd (_auth_handler_post_get_auth E s)).
Proof.
  intros E s. unfold _auth_handler_post_get_auth at 2 3.
  destruct (auth s) as [a |] eqn:Ha.
  - destruct (kind a) eqn:Hk.
    + cbn [snd]. unfold _auth_handler_post_get_auth. now rewrite Ha, Hk.
    + destruct (last_opt (history_objects s)) as [r |] eqn:Hh.
      * destruct ((status_code r =? 401) && negb (auth_attempted a)) eqn:Hc.
        -- cbn [snd]. unfold _auth_handler_post_get_auth.
           change (auth (set_auth (Some (MkAuth PostResponseAuth true)) s))
             with (Some (MkAuth PostResponseAuth true)).
           change (history_objects
                     (set_auth (Some (MkAuth PostResponseAuth true)) s))
             with (history_objects s).
           cbn [kind auth_attempted negb]. rewrite Hh, andb_false_r.
           reflexivity.
        -- cbn [snd]. unfold _auth_handler_post_get_auth.
           now rewrite Ha, Hk, Hh, Hc.
      * cbn [snd]. unfold _auth_handler_post_get_auth. now rewrite Ha, Hk, Hh.
    + cbn [snd]. unfold _auth_handler_post_get_auth. now rewrite Ha, Hk.
  - cbn [snd]. unfold _auth_handler_post_get_auth. now rewrite Ha.
Qed.

(** ** The headers of the request *)

Lemma build_path_keeps s :
  (headers (_build_path s), auth (_build_path s), port (_build_path s),
   netloc (_build_path s), method (_build_path s), cookies (_build_path s))
  = (headers s, auth s, port s, netloc s, method s, cookies s).
Proof. unfold _build_path. repeat break_match; reflexivity. Qed.

(** With no authentication strategy, the request handed to h11 carries the
    default headers, overridden by those of the body, then by the user's,
    then by the Cookie header. *)
Lemma assemble_without_auth E redirect s req s' :
  auth s = None ->
  assemble E redirect s = (Ret req, s') ->
  let s0 := parse_uri redirect s in
  let s1 := _build_path (inject_cookies E s0) in
  exists hs body,
    with_body E s1 (default_headers s0) = Ret (hs, body)
    /\ rq_headers req = with_cookie_header s1 (with_user_headers s1 hs)
    /\ rq_body req = h11_body E s1 body
    /\ headers s1 = headers s
    /\ s' = s1.
Proof.
  intros Ha H s0 s1. unfold assemble in H. fold s0 in H. fold s1 in H.
  pose proof (build_path_keeps (inject_cookies E s0)) as Hk. fold s1 in Hk.
  injection Hk as Hh Hau _ _ _ _.
  assert (Hau1 : auth s1 = None).
  { rewrite Hau. unfold inject_cookies, s0, parse_uri.
    destruct (persist_cookies _); destruct redirect; exact Ha. }
  assert (Hh1 : headers s1 = headers s).
  { rewrite Hh. unfold inject_cookies, s0, parse_uri.
    destruct (persist_cookies _); destruct redirect; reflexivity. }
  destruct (with_body E s1 (default_headers s0)) as [[hs body] | e |];
    try discriminate H.
  unfold with_auth in H. rewrite Hau1 in H.
  injection H as <- <-.
  exists hs, body. repeat split; try reflexivity. exact Hh1.
Qed.

Lemma formulate_body_length E s ct cl b :
  _formulate_body E s = Ret (ct, cl, b) -> cl = PyStr.of_nat (String.length b).
Proof.
  unfold _formulate_body, with_len. intros H.
  repeat break_match_in H; try discriminate H;
    apply ret_inj in H; injection H as _ <- <-; reflexivity.
Qed.

Lemma cookie_header_keeps k s hs :
  PyStr.lower k <> "cookie" ->
  CIDict.get k (with_cookie_header s hs) = CIDict.get k hs.
Proof.
  intros Hk. unfold with_cookie_header.
  destruct (negb (is_nil (cookies s))); [| reflexivity].
  unfold CIDict.get, CIDict.set. rewrite dict_get_set.
  change (PyStr.lower "Cookie") with "cookie".
  destruct (String.eqb (PyStr.lower k) "cookie") eqn:He; [| reflexivity].
  apply String.eqb_eq in He. contradiction.
Qed.

Lemma files_assembled E redirect s :
  files (_build_path (inject_cookies E (parse_uri redirect s))) = files s
  /\ encoding (_build_path (inject_cookies E (parse_uri redirect s)))
     = encoding s.
Proof.
  assert (Hb : forall x, files (_build_path x) = files x
                         /\ encoding (_build_path x) = encoding x)
    by (intros x; unfold _build_path; repeat break_match;
        split; reflexivity).
  destruct (Hb (inject_cookies E (parse_uri redirect s))) as [-> ->].
  unfold inject_cookies, parse_uri.
  destruct (persist_cookies _); destruct redirect; split; reflexivity.
Qed.

(** X14. Content-Length is taken before the body is encoded.  When no
    user header and no authentication header interferes, the
    Content-Length header of every assembled request is the decimal
    length of the body as [_formulate_body] leaves it, and "0" when no
    body is sent.  A multipart body is bytes already and is sent as it
    is, so the header is the number of bytes sent; a text body (form
    data, literal data, JSON) is sent encoded with the request's codec,
    so the header is its number of characters, and it is the number of
    bytes sent exactly when the codec keeps the length of this text. *)
Theorem assembled_content_length :
  forall E redirect s req s',
    headers s = None ->
    auth s = None ->
    assemble E redirect s = (Ret req, s') ->
    exists body,
      CIDict.get "Content-Length" (rq_headers req)
      = Ret (HStr (PyStr.of_nat (String.length body)))
      /\ rq_body req
         = (if PyStr.truthy body
            then Some (match files s with
                       | Some _ => body
                       | None => encode E (encoding s) body
                       end)
            else None)
      /\ (String.length (match rq_body req with Some b => b | None => "" end)
          = String.length body
          <-> files s <> None
              \/ String.length (encode E (encoding s) body)
                 = String.length body
              \/ body = "").
Proof.
  intros E redirect s req s' Hh Ha H.
  destruct (assemble_without_auth E redirect s req s' Ha H)
    as (hs & body & Hwb & Hhs & Hb & Hh1 & _).
  destruct (files_assembled E redirect s) as [Hfiles Henc].
  exists body.
  assert (Hcl : CIDict.get "Content-Length" (rq_headers req)
                = Ret (HStr (PyStr.of_nat (String.length body)))).
  { rewrite Hhs. rewrite cookie_header_keeps by discriminate.
    unfold with_user_headers. rewrite Hh1, Hh.
    unfold with_body in Hwb.
    destruct (_ || _).
    - destruct (_formulate_body E _) as [[[ct cl] b] | e |] eqn:Hf;
        try discriminate Hwb.
      apply formulate_body_length in Hf. subst cl.
      apply ret_inj in Hwb. injection Hwb as <- <-.
      unfold CIDict.get, CIDict.set. rewrite dict_get_set. reflexivity.
    - apply ret_inj in Hwb. injection Hwb as <- <-. reflexivity. }
  assert (Hbody : rq_body req
                  = (if PyStr.truthy body
                     then Some (match files s with
                                | Some _ => body
                                | None => encode E (encoding s) body
                                end)
                     else None)).
  { rewrite Hb. unfold h11_body, body_is_bytes. rewrite Hfiles, Henc.
    destruct (files s); reflexivity. }
  split; [exact Hcl |]. split; [exact Hbody |].
  rewrite Hbody. destruct body as [| c body]; cbn [PyStr.truthy PyStr.is_empty negb].
  - split; [intros _; right; right; reflexivity | reflexivity].
  - destruct (files s) as [f |].
    + split; [intros _; left; discriminate | reflexivity].
    + split.
      * intros Hlen. right. left. exact Hlen.
      * intros [Hf | [Hlen | Hempty]];
          [congruence | exact Hlen | discriminate Hempty].
Qed.

(** Literal data with one character outside ASCII under utf-8: five
    characters are announced, six bytes are sent. *)
Lemma assembled_content_length_witness :
  exists req s',
    assemble (Demo.env (Demo.always [])) false
      (Samples.sourced "http://a.com/form"
         (Some (DStr ("h" ++ String (ascii_of_nat 233) "llo")))
         None None None)
    = (Ret req, s')
    /\ CIDict.get "Content-Length" (rq_headers req) = Ret (HStr "5")
    /\ String.length (match rq_body req with Some b => b | None => "" end)
       = 6%nat
    /\ exists body,
         CIDict.get "Content-Length" (rq_headers req)
         = Ret (HStr (PyStr.of_nat (String.length body)))
         /\ rq_body req
            = (if PyStr.truthy body
               then Some (encode (Demo.env (Demo.always [])) "utf-8" body)
               else None).
Proof.
  destruct (assemble (Demo.env (Demo.always [])) false
              (Samples.sourced "http://a.com/form"
                 (Some (DStr ("h" ++ String (ascii_of_nat 233) "llo")))
                 None None None))
    as [[req | e |] s'] eqn:Hrun.
  - exists req, s'. split; [reflexivity |].
    split; [vm_compute in Hrun; injection Hrun as <- _; reflexivity |].
    split; [vm_compute in Hrun; injection Hrun as <- _; reflexivity |].
    destruct (assembled_content_length
                (Demo.env (Demo.always [])) false
                (Samples.sourced "http://a.com/form"
                   (Some (DStr ("h" ++ String (ascii_of_nat 233) "llo")))
                   None None None) req s'
                eq_refl eq_refl Hrun) as (body & Hcl & Hb & _).
    exists body. split; [exact Hcl | exact Hb].
  - vm_compute in Hrun. discriminate Hrun.
  - vm_compute in Hrun. discriminate Hrun.
Defined.

Lemma with_body_keeps E s hs0 hs body k :
  PyStr.lower k <> "content-type" ->
  PyStr.lower k <> "content-length" ->
  with_body E s hs0 = Ret (hs, body) ->
  CIDict.get k hs = CIDict.get k hs0.
Proof.
  intros Hct Hcl H. unfold with_body in H.
  destruct (_ || _).
  - destruct (_formulate_body E s) as [[[ct cl] b] | e |];
      try discriminate H.
    apply ret_inj in H. injection H as <- _.
    unfold CIDict.get, CIDict.set. rewrite !dict_get_set.
    change (PyStr.lower "Content-Length") with "content-length".
    change (PyStr.lower "Content-Type") with "content-type".
    destruct (String.eqb (PyStr.lower k) "content-length") eqn:H1;
      [apply String.eqb_eq in H1; contradiction |].
    destruct (String.eqb (PyStr.lower k) "content-type") eqn:H2;
      [apply String.eqb_eq in H2; contradiction |].
    reflexivity.
  - apply ret_inj in H. injection H as <- _. reflexivity.
Qed.

(** X15. When no user header and no authentication header interferes,
    the Host header of every assembled request is the authority of the
    URI the request currently targets, followed by ":" and the port
    unless the port is "80" or "443". *)
Theorem assembled_host :
  forall E redirect s req s',
    headers s = None ->
    auth s = None ->
    assemble E redirect s = (Ret req, s') ->
    CIDict.get "Host" (rq_headers req)
    = Ret (HStr (if String.eqb (port s) "80" || String.eqb (port s) "443"
                 then Url.netloc (Url.urlparse (uri s))
                 else Url.netloc (Url.urlparse (uri s)) ++ ":" ++ port s)).
Proof.
  intros E redirect s req s' Hh Ha H.
  destruct (assemble_without_auth E redirect s req s' Ha H)
    as (hs & body & Hwb & Hhs & _ & Hh1 & _).
  rewrite Hhs. rewrite cookie_header_keeps by discriminate.
  unfold with_user_headers. rewrite Hh1, Hh.
  rewrite (with_body_keeps _ _ _ _ _ "Host" ltac:(discriminate)
             ltac:(discriminate) Hwb).
  unfold default_headers.
  replace (port (parse_uri redirect s)) with (port s)
    by (unfold parse_uri; destruct redirect; reflexivity).
  replace (netloc (parse_uri redirect s))
    with (Url.netloc (Url.urlparse (uri s)))
    by (unfold parse_uri; destruct redirect; reflexivity).
  reflexivity.
Qed.

Lemma assembled_host_witness :
  exists req s',
    assemble (Demo.env (Demo.always [])) false Samples.form_post
    = (Ret req, s')
    /\ CIDict.get "Host" (rq_headers req) = Ret (HStr "a.com:8080").
Proof.
  destruct (assemble (Demo.env (Demo.always [])) false Samples.form_post)
    as [[req | e |] s'] eqn:Hrun.
  - pose proof (assembled_host
                  (Demo.env (Demo.always [])) false Samples.form_post req s'
                  eq_refl eq_refl Hrun) as Hhost.
    exists req, s'. split; [reflexivity |]. rewrite Hhost.
    vm_compute. reflexivity.
  - vm_compute in Hrun. discriminate Hrun.
  - vm_compute in Hrun. discriminate Hrun.
Defined.

Lemma user_headers_later_keys h2 k : forall d,
  forallb (fun kv => negb (String.eqb (PyStr.lower (fst kv)) (PyStr.lower k)))
          h2 = true ->
  CIDict.get k (CIDict.update d h2) = CIDict.get k d.
Proof.
  unfold CIDict.update.
  induction h2 as [| [k2 v2] h2 IH]; intros d H; [reflexivity |].
  cbn [forallb fst] in H. apply andb_prop in H. destruct H as [Hk Hrest].
  cbn [fold_left fst snd]. rewrite (IH _ Hrest).
  unfold CIDict.get, CIDict.set. rewrite dict_get_set.
  rewrite String.eqb_sym. apply negb_true_iff in Hk. rewrite Hk.
  reflexivity.
Qed.

(** X16. A header the user supplies takes precedence over every computed
    header: with no authentication strategy, the assembled request
    carries, under the name of each user header (in any letter case), the
    value the user gave last for that name, the Cookie header of a
    request with cookies excepted. *)
Theorem user_header_takes_precedence :
  forall E redirect s req s' h1 k v h2,
    headers s = Some (h1 ++ (k, v) :: h2)%list ->
    forallb (fun kv => negb (String.eqb (PyStr.lower (fst kv)) (PyStr.lower k)))
            h2 = true ->
    PyStr.lower k <> "cookie" ->
    auth s = None ->
    assemble E redirect s = (Ret req, s') ->
    CIDict.get k (rq_headers req) = Ret (HStr v).
Proof.
  intros E redirect s req s' h1 k v h2 Hh Hlater Hk Ha H.
  destruct (assemble_without_auth E redirect s req s' Ha H)
    as (hs & body & _ & Hhs & _ & Hh1 & _).
  rewrite Hhs. rewrite cookie_header_keeps by exact Hk.
  unfold with_user_headers. rewrite Hh1, Hh.
  unfold CIDict.update. rewrite fold_left_app. cbn [fold_left fst snd].
  fold (CIDict.update
          (CIDict.set k (HStr v)
             (fold_left (fun acc kv => CIDict.set (fst kv) (HStr (snd kv)) acc)
                h1 hs)) h2).
  rewrite (user_headers_later_keys h2 k _ Hlater).
  unfold CIDict.get, CIDict.set. rewrite dict_get_set, String.eqb_refl.
  reflexivity.
Qed.

Lemma user_header_takes_precedence_witness :
  exists req s',
    assemble (Demo.env (Demo.always [])) false
      (Samples.sourced "http://a.com/" None None (Some (VAtom (AInt 1)))
         (Some [("content-type", "text/plain"); ("Accept", "text/html");
                ("Content-Type", "application/xml")]))
    = (Ret req, s')
    /\ CIDict.get "Content-Type" (rq_headers req)
       = Ret (HStr "application/xml")
    /\ CIDict.get "Accept" (rq_headers req) = Ret (HStr "text/html").
Proof.
  destruct (assemble (Demo.env (Demo.always [])) false
              (Samples.sourced "http://a.com/" None None
                 (Some (VAtom (AInt 1)))
                 (Some [("content-type", "text/plain"); ("Accept", "text/html");
                        ("Content-Type", "application/xml")])))
    as [[req | e |] s'] eqn:Hrun.
  - exists req, s'. split; [reflexivity |]. split.
    + apply (user_header_takes_precedence
               (Demo.env (Demo.always [])) false
               (Samples.sourced "http://a.com/" None None
                  (Some (VAtom (AInt 1)))
                  (Some [("content-type", "text/plain");
                         ("Accept", "text/html");
                         ("Content-Type", "application/xml")]))
               req s'
               [("content-type", "text/plain"); ("Accept", "text/html")]
               "Content-Type" "application/xml" []);
        [reflexivity | reflexivity | discriminate | reflexivity | exact Hrun].
    + apply (user_header_takes_precedence
               (Demo.env (Demo.always [])) false
               (Samples.sourced "http://a.com/" None None
                  (Some (VAtom (AInt 1)))
                  (Some [("content-type", "text/plain");
                         ("Accept", "text/html");
                         ("Content-Type", "application/xml")]))
               req s'
               [("content-type", "text/plain")]
               "Accept" "text/html" [("Content-Type", "application/xml")]);
        [reflexivity | reflexivity | discriminate | reflexivity | exact Hrun].
  - vm_compute in Hrun. discriminate Hrun.
  - vm_compute in Hrun. discriminate Hrun.
Defined.

(** ** One redirect step *)

(** Attributes that replacing the connection and retargeting the request
    leave alone: any projection of the request that ignores [uri], [sock]
    and [port]. *)
Section ConnectionBlind.

Context {X : Type} (f : Request -> X).
Hypothesis f_uri : forall x s, f (set_uri x s) = f s.
Hypothesis f_sock : forall x s, f (set_sock x s) = f s.
Hypothesis f_port : forall x s, f (set_port x s) = f s.




End ConnectionBlind.




(** X18. A request that has no body source left (as after a 303) is
    assembled without a body; and unless a user header or an
    authentication header supplies one, it carries no Content-Type and a
    Content-Length of "0". *)
Theorem assembled_without_sources :
  forall E redirect s,
    files s = None -> data s = None -> json s = None ->
    exists req s',
      assemble E redirect s = (Ret req, s')
      /\ rq_body req = None
      /\ (headers s = None -> auth s = None ->
          CIDict.get "Content-Type" (rq_headers req)
          = Raise (KeyError "Content-Type")
          /\ CIDict.get "Content-Length" (rq_headers req) = Ret (HStr "0")).
Proof.
  intros E redirect s Hf Hd Hj.
  destruct (assemble_spec E redirect s (with_len HNone ""))
    as (req & s' & Hrun & _).
  { unfold _formulate_body. now rewrite Hf, Hd, Hj. }
  exists req, s'. split; [exact Hrun |].
  set (s0 := parse_uri redirect s).
  set (s1 := _build_path (inject_cookies E s0)).
  assert (Hsrc : with_body E s1 (default_headers s0)
                 = Ret (default_headers s0, "")).
  { assert (Hc : ctl s1 = ctl s).
    { unfold s1, s0.
      now rewrite ctl_build_path, ctl_inject_cookies, ctl_parse_uri. }
    apply ctl_inv in Hc. destruct Hc as (_ & _ & _ & _ & Hc).
    injection Hc as Hf1 Hd1 Hj1.
    unfold with_body. rewrite Hf1, Hd1, Hj1, Hf, Hd, Hj. reflexivity. }
  assert (Hbody : rq_body req = None).
  { unfold assemble in Hrun. fold s0 in Hrun. fold s1 in Hrun.
    rewrite Hsrc in Hrun.
    destruct (with_auth E s1 (with_user_headers s1 (default_headers s0)))
      as [hs s2].
    injection Hrun as <- _. reflexivity. }
  split; [exact Hbody |].
  intros Hh Ha.
  destruct (assemble_without_auth E redirect s req s' Ha Hrun)
    as (hs & body & Hwb & Hhs & _ & Hh1 & _).
  fold s0 in Hwb. fold s1 in Hwb. fold s1 in Hhs. fold s1 in Hh1.
  rewrite Hsrc in Hwb. apply ret_inj in Hwb. injection Hwb as <- _.
  rewrite Hhs. rewrite !cookie_header_keeps by discriminate.
  unfold with_user_headers. rewrite Hh1, Hh.
  split; reflexivity.
Qed.

Lemma assembled_without_sources_witness :
  exists req s',
    assemble (Demo.env (Demo.always [])) false (Demo.request "http://a.com/x")
    = (Ret req, s')
    /\ rq_body req = None
    /\ CIDict.get "Content-Type" (rq_headers req)
       = Raise (KeyError "Content-Type")
    /\ CIDict.get "Content-Length" (rq_headers req) = Ret (HStr "0").
Proof.
  destruct (assembled_without_sources
              (Demo.env (Demo.always [])) false
              (Demo.request "http://a.com/x") eq_refl eq_refl eq_refl)
    as (req & s' & Hrun & Hbody & Hhs).
  destruct (Hhs eq_refl eq_refl) as [Hct Hcl].
  exists req, s'. repeat split; assumption.
Defined.





(** X26. A 3xx response whose Location [urlparse] refuses for an
    unmatched square bracket in its authority is not followed:
    [_redirect] raises ValueError before it resolves the target, so the
    response is not added to the history, the budget is not spent, the
    method, the uri and the connection stay as they are and nothing is
    re-issued; only the sources of the body have already been cleared
    when the status is 303. *)
Theorem redirect_to_refused_location_raises :
  forall E rec resp st loc,
    300 <= status_code resp < 400 ->
    CIDict.get "Location" (resp_headers resp) = Ret (HStr loc) ->
    Url.invalid_ipv6 (PyStr.strip loc) = true ->
    exists st',
      _redirect E rec (OResp resp) st
      = (Raise (ValueError "Invalid IPv6 URL"), st')
      /\ world st' = world st
      /\ history_objects (self st') = history_objects (self st)
      /\ max_redirects (self st') = max_redirects (self st)
      /\ method (self st') = method (self st)
      /\ uri (self st') = uri (self st)
      /\ sock (self st') = sock (self st)
      /\ (files (self st'), data (self st'), json (self st'))
         = (if status_code resp =? 303 then (None, None, None)
            else (files (self st), data (self st), json (self st))).
Proof.
  intros E rec resp st loc [Hlo Hhi] Hloc Hbad.
  unfold _redirect.
  replace ((300 <=? status_code resp) && (status_code resp <? 400))
    with true
    by (symmetry; apply andb_true_intro; split;
        [apply Z.leb_le | apply Z.ltb_lt]; lia).
  assert (Hraise : urlparse_or_raise E (PyStr.strip loc)
                   = Raise (ValueError "Invalid IPv6 URL"))
    by (unfold urlparse_or_raise; now rewrite Hbad).
  unfold resolve_location, bind, when, ret, lift_res, get_self, modify_self.
  rewrite Hloc.
  destruct (status_code resp =? 303);
    cbn [as_str]; unfold ret; cbv beta iota; rewrite Hraise;
    eexists; (split; [reflexivity |]); repeat split; reflexivity.
Qed.

(** A 302 whose Location opens a bracket that it does not close. *)
Lemma redirect_to_refused_location_raises_witness :
  let E := Demo.env (Demo.always Demo.ok_hi) in
  let st := MkSt (parse_uri false (Demo.request "http://a.com/x"))
                 Demo.world0 in
  exists st',
    _redirect E (make_request E 1 false)
      (OResp (Samples.redirecting 302 "http://[::1/y")) st
    = (Raise (ValueError "Invalid IPv6 URL"), st')
    /\ world st' = Demo.world0
    /\ history_objects (self st') = []
    /\ max_redirects (self st') = 20
    /\ uri (self st') = "http://a.com/x".
Proof.
  intros E st.
  destruct (redirect_to_refused_location_raises
              E (make_request E 1 false)
              (Samples.redirecting 302 "http://[::1/y") st "http://[::1/y")
    as (st' & Hrun & Hworld & Hhist & Hmax & _ & Huri & _).
  - simpl. lia.
  - reflexivity.
  - reflexivity.
  - exists st'. split; [exact Hrun |].
    split; [exact Hworld | split; [exact Hhist | split; [exact Hmax |]]].
    exact Huri.
Defined.

(** ** A whole attempt *)










